(** * financas-pessoais: the store layer and the budget-status derivation

    A shallow embedding of the three React context modules
    [AccountsContext.jsx], [TransactionsContext.jsx] and
    [BudgetsContext.jsx]: their reducers, their asynchronous mutation
    operations and their derived read accessors.

    Modelling conventions.
    - A JavaScript number that is stored in a record ([amount], [balance])
      is a rational [Q].  The modules of the stores compute with exact
      sums and quotients; they carry the statements that do not depend on
      rounding: which elements are summed, what a failure leaves behind,
      inequalities that rounding preserves.  The module [Binary64] gives
      the arithmetic of the program itself, every sum, quotient and
      product rounded to the nearest double, and the budget status
      computed with it; overflow, subnormal numbers and signed zeros are
      outside the model.  The quotient computed for a percentage may leave
      the rationals (division by zero), so the result of [/] is a
      [JSNum]: a rational, an infinity or NaN.
    - A [Date] is its time value in milliseconds, [None] for an Invalid
      Date.  The [Date] constructor follows the ECMAScript abstract
      operations MakeDay, MakeTime, MakeDate and TimeClip; the local zone
      is taken to be UTC.
    - [array.filter], [array.map] and [array.reduce] are [filter], [map]
      and [fold_left].
    - An asynchronous operation is a computation in a small state and
      exception monad; the answer of the REST API is an argument of the
      operation. *)

From Stdlib Require Import List String ZArith QArith Qabs Qround Qpower.
From Stdlib Require Import Bool Lia Lqa Permutation.
Import ListNotations.

Local Open Scope Z_scope.

(* ================================================================= *)
(** ** JavaScript numbers *)

Module JS.

(** The value of an arithmetic expression. *)
Inductive JSNum : Type :=
| Num (q : Q)
| PosInf
| NegInf
| NaN.

Definition Qlt_bool (a b : Q) : bool := negb (Qle_bool b a).

(** [a / b] on two finite numbers. *)
Definition div (a b : Q) : JSNum :=
  if Qeq_bool b 0 then
    if Qlt_bool 0 a then PosInf
    else if Qlt_bool a 0 then NegInf
    else NaN
  else Num (a / b).

(** The sign of a finite number: -1, 0 or 1. *)
Definition sgn (q : Q) : Z :=
  if Qlt_bool 0 q then 1 else if Qlt_bool q 0 then -1 else 0.

Definition signed_inf (s : Z) : JSNum :=
  if s =? 0 then NaN else if 0 <? s then PosInf else NegInf.

(** [x * y]. *)
Definition mul (x y : JSNum) : JSNum :=
  match x, y with
  | NaN, _ | _, NaN => NaN
  | Num a, Num b => Num (a * b)
  | Num a, PosInf | PosInf, Num a => signed_inf (sgn a)
  | Num a, NegInf | NegInf, Num a => signed_inf (- sgn a)
  | PosInf, PosInf | NegInf, NegInf => PosInf
  | PosInf, NegInf | NegInf, PosInf => NegInf
  end.

(** [x >= y]; every comparison with NaN is false. *)
Definition ge (x y : JSNum) : bool :=
  match x, y with
  | NaN, _ | _, NaN => false
  | Num a, Num b => Qle_bool b a
  | PosInf, _ => true
  | _, NegInf => true
  | _, PosInf => false
  | NegInf, _ => false
  end.

(** [x > y]. *)
Definition gt (x y : JSNum) : bool :=
  match x, y with
  | NaN, _ | _, NaN => false
  | Num a, Num b => Qlt_bool b a
  | PosInf, PosInf => false
  | PosInf, _ => true
  | NegInf, _ => false
  | Num _, NegInf => true
  | Num _, PosInf => false
  end.

(** [Math.min(x, y)]: NaN when either argument is NaN. *)
Definition min (x y : JSNum) : JSNum :=
  match x, y with
  | NaN, _ | _, NaN => NaN
  | NegInf, _ | _, NegInf => NegInf
  | PosInf, z | z, PosInf => z
  | Num a, Num b => if Qle_bool a b then Num a else Num b
  end.

(** [array.reduce((total, x) => total + f(x), 0)]. *)
Definition reduce_sum {A : Type} (f : A -> Q) (l : list A) : Q :=
  fold_left (fun total x => (total + f x)%Q) l 0%Q.

End JS.

(* ================================================================= *)
(** ** Dates *)

Module JSDate.

(** The time value of a [Date]; [None] is the NaN of an Invalid Date. *)
Definition Date : Type := option Z.

Definition msPerDay : Z := 86400000.

Definition DaysInYear (y : Z) : Z :=
  if negb (y mod 4 =? 0) then 365
  else if negb (y mod 100 =? 0) then 366
  else if negb (y mod 400 =? 0) then 365
  else 366.

Definition DayFromYear (y : Z) : Z :=
  365 * (y - 1970) + (y - 1969) / 4 - (y - 1901) / 100 + (y - 1601) / 400.

Definition InLeapYear (y : Z) : Z :=
  if DaysInYear y =? 366 then 1 else 0.

(** The day within the year on which month [m] (0 = January) starts. *)
Definition monthStart (m leap : Z) : Z :=
  if m =? 0 then 0
  else if m =? 1 then 31
  else if m =? 2 then 59 + leap
  else if m =? 3 then 90 + leap
  else if m =? 4 then 120 + leap
  else if m =? 5 then 151 + leap
  else if m =? 6 then 181 + leap
  else if m =? 7 then 212 + leap
  else if m =? 8 then 243 + leap
  else if m =? 9 then 273 + leap
  else if m =? 10 then 304 + leap
  else 334 + leap.

(** The number of days of month [m] (0 = January) of year [y]. *)
Definition DaysInMonth (y m : Z) : Z :=
  if m =? 1 then 28 + InLeapYear y
  else if (m =? 3) || (m =? 5) || (m =? 8) || (m =? 10) then 30
  else 31.

(** MakeDay: the day number of day [date] of month [month] of [year];
    months outside 0..11 carry into the year, days outside the month
    carry into the neighbouring months. *)
Definition MakeDay (year month date : Z) : Z :=
  let ym := year + month / 12 in
  let mn := month mod 12 in
  DayFromYear ym + monthStart mn (InLeapYear ym) + date - 1.

Definition MakeTime (hour min sec ms : Z) : Z :=
  hour * 3600000 + min * 60000 + sec * 1000 + ms.

Definition MakeDate (day time : Z) : Z := day * msPerDay + time.

Definition TimeClip (t : Z) : Date :=
  if 8640000000000000 <? Z.abs t then None else Some t.

(** [new Date(year, month, date, hours, minutes, seconds, ms)]; a year
    from 0 to 99 stands for 1900 + year. *)
Definition newDate (year month date hours minutes seconds ms : Z) : Date :=
  let yr := if (0 <=? year) && (year <=? 99) then 1900 + year else year in
  TimeClip (MakeDate (MakeDay yr month date)
                     (MakeTime hours minutes seconds ms)).

(** [a <= b] on two dates: the comparison of the time values, false as
    soon as one of them is NaN. *)
Definition le (a b : Date) : bool :=
  match a, b with
  | Some x, Some y => x <=? y
  | _, _ => false
  end.

(** [a >= b]. *)
Definition ge (a b : Date) : bool := le b a.

End JSDate.

(* ================================================================= *)
(** ** Asynchronous operations *)

Module Async.

(** What [await api.verb(...)] produces: [inl message] when the promise
    rejects with an error carrying [message], [inr dados] otherwise. *)
Definition ApiResult (A : Type) : Type := (string + A)%type.

(** A computation over a store [S]: it ends in a new store and either a
    thrown message or a value. *)
Definition M (S A : Type) : Type := S -> S * (string + A).

Definition ret {S A : Type} (a : A) : M S A := fun s => (s, inr a).

Definition throw {S A : Type} (mensagem : string) : M S A :=
  fun s => (s, inl mensagem).

Definition bind {S A B : Type} (c : M S A) (k : A -> M S B) : M S B :=
  fun s =>
    match c s with
    | (s', inr a) => k a s'
    | (s', inl mensagem) => (s', inl mensagem)
    end.

Definition try_catch {S A : Type} (c : M S A) (handler : string -> M S A)
  : M S A :=
  fun s =>
    match c s with
    | (s', inl mensagem) => handler mensagem s'
    | r => r
    end.

Definition await {S A : Type} (response : ApiResult A) : M S A :=
  fun s => (s, response).

Definition modify {S : Type} (f : S -> S) : M S unit :=
  fun s => (f s, inr tt).

End Async.

Declare Scope async_scope.
Delimit Scope async_scope with async.
Notation "x <- c ;; k" := (Async.bind c (fun x => k))
  (at level 61, c at next level, right associativity) : async_scope.
Notation "c ;;; k" := (Async.bind c (fun _ => k))
  (at level 61, right associativity) : async_scope.

(* ================================================================= *)
(** ** AuthContext.jsx *)

Module AuthContext.

(** The user object of the API.  The stores read nothing of it but
    [id]. *)
Record User : Type := mkUser {
  id : Z;
  name : string;
  email : string
}.

Record State : Type := mkState {
  user : option User;
  isAuthenticated : bool;
  isLoading : bool;
  error : option string
}.

Definition initialState : State :=
  {| user := None; isAuthenticated := false; isLoading := false;
     error := None |}.

Inductive Action : Type :=
| LOGIN_START
| LOGIN_SUCCESS (user : User)
| LOGIN_FAILURE (error : string)
| LOGOUT
| REGISTER_START
| REGISTER_SUCCESS (user : User)
| REGISTER_FAILURE (error : string)
| RESET_PASSWORD_START
| RESET_PASSWORD_SUCCESS
| RESET_PASSWORD_FAILURE (error : string)
| CLEAR_ERROR
| LOAD_USER (user : option User).

Definition authReducer (state : State) (action : Action) : State :=
  match action with
  | LOGIN_START | REGISTER_START | RESET_PASSWORD_START =>
      {| user := user state; isAuthenticated := isAuthenticated state;
         isLoading := true; error := None |}
  | LOGIN_SUCCESS u | REGISTER_SUCCESS u =>
      {| user := Some u; isAuthenticated := true; isLoading := false;
         error := None |}
  | LOGIN_FAILURE e | REGISTER_FAILURE e | RESET_PASSWORD_FAILURE e =>
      {| user := None; isAuthenticated := false; isLoading := false;
         error := Some e |}
  | RESET_PASSWORD_SUCCESS =>
      {| user := user state; isAuthenticated := isAuthenticated state;
         isLoading := false; error := None |}
  | LOGOUT =>
      {| user := None; isAuthenticated := false; isLoading := false;
         error := None |}
  | CLEAR_ERROR =>
      {| user := user state; isAuthenticated := isAuthenticated state;
         isLoading := isLoading state; error := None |}
  | LOAD_USER u =>
      {| user := u;
         isAuthenticated := match u with Some _ => true | None => false end;
         isLoading := false; error := error state |}
  end.

(** [localStorage]: [getItem] answers [None] for a key that is not
    there. *)
Definition Storage : Type := string -> option string.

Definition getItem (storage : Storage) (key : string) : option string :=
  storage key.

Definition setItem (storage : Storage) (key value : string) : Storage :=
  fun k => if (k =? key)%string then Some value else storage k.

Definition removeItem (storage : Storage) (key : string) : Storage :=
  fun k => if (k =? key)%string then None else storage k.

(** The truth value of what [getItem] answers: [null] and the empty
    string are falsy. *)
Definition truthy (item : option string) : bool :=
  match item with
  | Some s => negb (s =? "")%string
  | None => false
  end.

(** [user?.id] as a condition: no user, or an [id] of 0, is falsy. *)
Definition hasId (u : option User) : bool :=
  match u with
  | Some u => negb (id u =? 0)
  | None => false
  end.

Record Provider : Type := mkProvider {
  state : State;
  localStorage : Storage
}.

Section WithJSON.

(** [JSON.stringify] and [JSON.parse] on users: [parse] answers [None]
    when it throws, [Some None] for [null], [Some (Some u)] for a user
    object. *)
Variable stringify : User -> string.
Variable parse : string -> option (option User).

Local Open Scope async_scope.

Definition dispatch (action : Action) : Async.M Provider unit :=
  Async.modify (fun p =>
    {| state := authReducer (state p) action;
       localStorage := localStorage p |}).

Definition storeItem (key value : string) : Async.M Provider unit :=
  Async.modify (fun p =>
    {| state := state p;
       localStorage := setItem (localStorage p) key value |}).

Definition dropItem (key : string) : Async.M Provider unit :=
  Async.modify (fun p =>
    {| state := state p;
       localStorage := removeItem (localStorage p) key |}).

(** The effect run when the provider mounts. *)
Definition loadStoredUser : Async.M Provider unit :=
  fun p =>
    let storedUser := getItem (localStorage p) "financas_user" in
    let storedToken := getItem (localStorage p) "financas_token" in
    if truthy storedUser && truthy storedToken then
      match storedUser with
      | Some text =>
          match parse text with
          | Some u => dispatch (LOAD_USER u) p
          | None => dispatch (LOAD_USER None) p
          end
      | None => dispatch (LOAD_USER None) p
      end
    else dispatch (LOAD_USER None) p.

(** [response] is the outcome of [api.post('/auth/login', ...)]: the
    user and the token of [response.data.dados]. *)
Definition login (response : Async.ApiResult (User * string))
  : Async.M Provider (User * string) :=
  dispatch LOGIN_START ;;;
  Async.try_catch
    (dados <- Async.await response ;;
     storeItem "financas_user" (stringify (fst dados)) ;;;
     storeItem "financas_token" (snd dados) ;;;
     dispatch (LOGIN_SUCCESS (fst dados)) ;;;
     Async.ret dados)
    (fun mensagem =>
       dispatch (LOGIN_FAILURE mensagem) ;;;
       Async.throw mensagem).

(** [response] is the outcome of [api.post('/auth/register', userData)]. *)
Definition register (response : Async.ApiResult (User * string))
  : Async.M Provider (User * string) :=
  dispatch REGISTER_START ;;;
  Async.try_catch
    (dados <- Async.await response ;;
     storeItem "financas_user" (stringify (fst dados)) ;;;
     storeItem "financas_token" (snd dados) ;;;
     dispatch (REGISTER_SUCCESS (fst dados)) ;;;
     Async.ret dados)
    (fun mensagem =>
       dispatch (REGISTER_FAILURE mensagem) ;;;
       Async.throw mensagem).

(** [response] is the outcome of [api.post('/auth/reset-password', ...)]. *)
Definition resetPassword (response : Async.ApiResult unit)
  : Async.M Provider unit :=
  dispatch RESET_PASSWORD_START ;;;
  Async.try_catch
    (data <- Async.await response ;;
     dispatch RESET_PASSWORD_SUCCESS ;;;
     Async.ret data)
    (fun mensagem =>
       dispatch (RESET_PASSWORD_FAILURE mensagem) ;;;
       Async.throw mensagem).

Definition logout : Async.M Provider unit :=
  dropItem "financas_user" ;;;
  dropItem "financas_token" ;;;
  dispatch LOGOUT.

Definition clearError : Async.M Provider unit := dispatch CLEAR_ERROR.

End WithJSON.

End AuthContext.

(* ================================================================= *)
(** ** AccountsContext.jsx *)

Module AccountsContext.

Definition CHECKING : string := "checking".
Definition SAVINGS : string := "savings".
Definition CREDIT : string := "credit".
Definition CASH : string := "cash".
Definition INVESTMENT : string := "investment".

Record Account : Type := mkAccount {
  id : Z;
  type : string;
  balance : Q;
  isActive : bool
}.

Record State : Type := mkState {
  accounts : list Account;
  isLoading : bool;
  error : option string
}.

Definition initialState : State :=
  {| accounts := []; isLoading := false; error := None |}.

Inductive Action : Type :=
| LOAD_ACCOUNTS (payload : list Account)
| ADD_ACCOUNT (payload : Account)
| UPDATE_ACCOUNT (payload : Account)
| DELETE_ACCOUNT (payload : Z)
| SET_LOADING (payload : bool)
| SET_ERROR (payload : string)
| CLEAR_ERROR.

Definition accountsReducer (state : State) (action : Action) : State :=
  match action with
  | LOAD_ACCOUNTS payload =>
      {| accounts := payload; isLoading := false; error := None |}
  | ADD_ACCOUNT payload =>
      {| accounts := accounts state ++ [payload];
         isLoading := false; error := None |}
  | UPDATE_ACCOUNT payload =>
      {| accounts :=
           map (fun account =>
                  if id account =? id payload then payload else account)
               (accounts state);
         isLoading := false; error := None |}
  | DELETE_ACCOUNT payload =>
      {| accounts :=
           filter (fun account => negb (id account =? payload))
                  (accounts state);
         isLoading := false; error := None |}
  | SET_LOADING payload =>
      {| accounts := accounts state; isLoading := payload;
         error := error state |}
  | SET_ERROR payload =>
      {| accounts := accounts state; isLoading := false;
         error := Some payload |}
  | CLEAR_ERROR =>
      {| accounts := accounts state; isLoading := isLoading state;
         error := None |}
  end.

Definition getTotalBalance (state : State) : Q :=
  JS.reduce_sum balance
    (filter (fun account =>
               isActive account && negb (type account =? CREDIT)%string)
            (accounts state)).

Definition getTotalDebt (state : State) : Q :=
  Qabs
    (JS.reduce_sum balance
       (filter (fun account =>
                  isActive account && (type account =? CREDIT)%string
                  && JS.Qlt_bool (balance account) 0)
               (accounts state))).

Local Open Scope async_scope.

Definition dispatch (action : Action) : Async.M State unit :=
  Async.modify (fun state => accountsReducer state action).

(** [response] is the outcome of [api.post('/contas', accountData)]. *)
Definition addAccount (response : Async.ApiResult Account)
  : Async.M State Account :=
  Async.try_catch
    (dispatch (SET_LOADING true) ;;;
     newAccount <- Async.await response ;;
     dispatch (ADD_ACCOUNT newAccount) ;;;
     Async.ret newAccount)
    (fun mensagem =>
       dispatch (SET_ERROR mensagem) ;;;
       Async.throw mensagem).

(** [response] is the outcome of [api.put('/contas/<id>', updates)]. *)
Definition updateAccount (response : Async.ApiResult Account)
  : Async.M State Account :=
  Async.try_catch
    (dispatch (SET_LOADING true) ;;;
     updatedAccount <- Async.await response ;;
     dispatch (UPDATE_ACCOUNT updatedAccount) ;;;
     Async.ret updatedAccount)
    (fun mensagem =>
       dispatch (SET_ERROR mensagem) ;;;
       Async.throw mensagem).

(** [response] is the outcome of [api.delete('/contas/<id>')]. *)
Definition deleteAccount (accountId : Z) (response : Async.ApiResult unit)
  : Async.M State unit :=
  Async.try_catch
    (dispatch (SET_LOADING true) ;;;
     Async.await response ;;;
     dispatch (DELETE_ACCOUNT accountId))
    (fun mensagem =>
       dispatch (SET_ERROR mensagem) ;;;
       Async.throw mensagem).

(** [array.find]: the first account with that id, [None] for
    [undefined]. *)
Definition getAccountById (state : State) (accountId : Z) : option Account :=
  find (fun account => id account =? accountId) (accounts state).

Definition getAccountsByType (state : State) (ty : string) : list Account :=
  filter (fun account => (type account =? ty)%string && isActive account)
         (accounts state).

Definition clearError : Async.M State unit := dispatch CLEAR_ERROR.

(** [response] is the outcome of [api.get('/contas')]; the failure is
    logged and kept in the store, not thrown. *)
Definition loadAccounts (user : option AuthContext.User)
    (response : Async.ApiResult (list Account)) : Async.M State unit :=
  if AuthContext.hasId user then
    dispatch (SET_LOADING true) ;;;
    Async.try_catch
      (loaded <- Async.await response ;;
       dispatch (LOAD_ACCOUNTS loaded))
      (fun mensagem => dispatch (SET_ERROR mensagem))
  else Async.ret tt.

End AccountsContext.

(* ================================================================= *)
(** ** TransactionsContext.jsx *)

Module Category.

Record t : Type := mk {
  id : string;
  name : string;
  icon : string;
  color : string
}.

End Category.

Module TransactionsContext.

Definition INCOME : string := "income".
Definition EXPENSE : string := "expense".

Definition COMPLETED : string := "completed".
Definition PENDING : string := "pending".
Definition CANCELLED : string := "cancelled".

(** [date] holds what [new Date(transaction.date)] evaluates to. *)
Record Transaction : Type := mkTransaction {
  id : Z;
  date : JSDate.Date;
  amount : Q;
  type : string;
  category : Category.t;
  accountId : Z;
  status : string
}.

Record State : Type := mkState {
  transactions : list Transaction;
  isLoading : bool;
  error : option string
}.

Definition initialState : State :=
  {| transactions := []; isLoading := false; error := None |}.

Inductive Action : Type :=
| LOAD_TRANSACTIONS (payload : list Transaction)
| ADD_TRANSACTION (payload : Transaction)
| UPDATE_TRANSACTION (payload : Transaction)
| DELETE_TRANSACTION (payload : Z)
| SET_LOADING (payload : bool)
| SET_ERROR (payload : string)
| CLEAR_ERROR.

Definition transactionsReducer (state : State) (action : Action) : State :=
  match action with
  | LOAD_TRANSACTIONS payload =>
      {| transactions := payload; isLoading := false; error := None |}
  | ADD_TRANSACTION payload =>
      {| transactions := payload :: transactions state;
         isLoading := false; error := None |}
  | UPDATE_TRANSACTION payload =>
      {| transactions :=
           map (fun transaction =>
                  if id transaction =? id payload then payload
                  else transaction)
               (transactions state);
         isLoading := false; error := None |}
  | DELETE_TRANSACTION payload =>
      {| transactions :=
           filter (fun transaction => negb (id transaction =? payload))
                  (transactions state);
         isLoading := false; error := None |}
  | SET_LOADING payload =>
      {| transactions := transactions state; isLoading := payload;
         error := error state |}
  | SET_ERROR payload =>
      {| transactions := transactions state; isLoading := false;
         error := Some payload |}
  | CLEAR_ERROR =>
      {| transactions := transactions state;
         isLoading := isLoading state; error := None |}
  end.

(** The provider: the reducer's state, and the number of times the
    accounts collaborator was asked to reload ([loadAccounts()], which
    is not awaited). *)
Record Provider : Type := mkProvider {
  state : State;
  accountReloads : nat
}.

Local Open Scope async_scope.

Definition dispatch (action : Action) : Async.M Provider unit :=
  Async.modify (fun p =>
    {| state := transactionsReducer (state p) action;
       accountReloads := accountReloads p |}).

Definition loadAccounts : Async.M Provider unit :=
  Async.modify (fun p =>
    {| state := state p; accountReloads := S (accountReloads p) |}).

(** [response] is the outcome of [api.post('/transacoes', data)]. *)
Definition addTransaction (response : Async.ApiResult Transaction)
  : Async.M Provider Transaction :=
  Async.try_catch
    (dispatch (SET_LOADING true) ;;;
     newTransaction <- Async.await response ;;
     loadAccounts ;;;
     dispatch (ADD_TRANSACTION newTransaction) ;;;
     Async.ret newTransaction)
    (fun mensagem =>
       dispatch (SET_ERROR mensagem) ;;;
       Async.throw mensagem).

(** [response] is the outcome of [api.put('/transacoes/<id>', updates)]. *)
Definition updateTransaction (response : Async.ApiResult Transaction)
  : Async.M Provider Transaction :=
  Async.try_catch
    (dispatch (SET_LOADING true) ;;;
     updatedTransaction <- Async.await response ;;
     loadAccounts ;;;
     dispatch (UPDATE_TRANSACTION updatedTransaction) ;;;
     Async.ret updatedTransaction)
    (fun mensagem =>
       dispatch (SET_ERROR mensagem) ;;;
       Async.throw mensagem).

(** [response] is the outcome of [api.delete('/transacoes/<id>')]. *)
Definition deleteTransaction (transactionId : Z)
    (response : Async.ApiResult unit) : Async.M Provider unit :=
  Async.try_catch
    (dispatch (SET_LOADING true) ;;;
     Async.await response ;;;
     loadAccounts ;;;
     dispatch (DELETE_TRANSACTION transactionId))
    (fun mensagem =>
       dispatch (SET_ERROR mensagem) ;;;
       Async.throw mensagem).

Definition getTransactionsByPeriod (st : State)
    (startDate endDate : JSDate.Date) : list Transaction :=
  filter (fun transaction =>
            let transactionDate := date transaction in
            JSDate.ge transactionDate startDate
            && JSDate.le transactionDate endDate)
         (transactions st).

Definition getTransactionsByCategory (st : State) (categoryId : string)
  : list Transaction :=
  filter (fun transaction =>
            (Category.id (category transaction) =? categoryId)%string)
         (transactions st).

Definition getTransactionsByAccount (st : State) (accId : Z)
  : list Transaction :=
  filter (fun transaction => accountId transaction =? accId)
         (transactions st).

(** [startDate && endDate ? ... : ...]: an argument that was not passed
    is [None]; a [Date] object is truthy whatever its time value. *)
Definition periodOrAll (st : State) (startDate endDate : option JSDate.Date)
  : list Transaction :=
  match startDate, endDate with
  | Some s, Some e => getTransactionsByPeriod st s e
  | _, _ => transactions st
  end.

Definition getTotalIncome (st : State)
    (startDate endDate : option JSDate.Date) : Q :=
  JS.reduce_sum amount
    (filter (fun t => (type t =? INCOME)%string
                      && (status t =? COMPLETED)%string)
            (periodOrAll st startDate endDate)).

Definition getTotalExpenses (st : State)
    (startDate endDate : option JSDate.Date) : Q :=
  JS.reduce_sum amount
    (filter (fun t => (type t =? EXPENSE)%string
                      && (status t =? COMPLETED)%string)
            (periodOrAll st startDate endDate)).

(** [response] is the outcome of [api.get('/transacoes')]; the failure is
    logged and kept in the store, not thrown. *)
Definition loadTransactions (user : option AuthContext.User)
    (response : Async.ApiResult (list Transaction))
  : Async.M Provider unit :=
  if AuthContext.hasId user then
    dispatch (SET_LOADING true) ;;;
    Async.try_catch
      (loaded <- Async.await response ;;
       dispatch (LOAD_TRANSACTIONS loaded))
      (fun mensagem => dispatch (SET_ERROR mensagem))
  else Async.ret tt.

Definition clearError : Async.M Provider unit := dispatch CLEAR_ERROR.

(** [CATEGORIES.INCOME] and [CATEGORIES.EXPENSE], in the order of their
    keys. *)
Definition CATEGORIES_INCOME : list Category.t :=
  [ Category.mk "salary" "Salário" "💼" "#2ecc71";
    Category.mk "freelance" "Freelance" "💻" "#3498db";
    Category.mk "investment" "Investimentos" "📈" "#9b59b6";
    Category.mk "gift" "Presente" "🎁" "#e74c3c";
    Category.mk "other_income" "Outros" "💰" "#95a5a6" ].

Definition CATEGORIES_EXPENSE : list Category.t :=
  [ Category.mk "food" "Alimentação" "🍽️" "#e67e22";
    Category.mk "transport" "Transporte" "🚗" "#3498db";
    Category.mk "health" "Saúde" "🏥" "#e74c3c";
    Category.mk "education" "Educação" "📚" "#9b59b6";
    Category.mk "entertainment" "Lazer" "🎬" "#f39c12";
    Category.mk "shopping" "Compras" "🛍️" "#e91e63";
    Category.mk "bills" "Contas" "📄" "#34495e";
    Category.mk "rent" "Aluguel" "🏠" "#16a085";
    Category.mk "other_expense" "Outros" "💸" "#95a5a6" ].

End TransactionsContext.

(* ================================================================= *)
(** ** BudgetsContext.jsx *)

Module BudgetsContext.

Definition ON_TRACK : string := "on_track".
Definition WARNING : string := "warning".
Definition EXCEEDED : string := "exceeded".

Record Budget : Type := mkBudget {
  id : Z;
  name : string;
  categoryId : string;
  amount : Q;
  year : Z;
  month : Z;
  isActive : bool;
  description : string
}.

Record State : Type := mkState {
  budgets : list Budget;
  isLoading : bool;
  error : option string
}.

Definition initialState : State :=
  {| budgets := []; isLoading := false; error := None |}.

Inductive Action : Type :=
| LOAD_BUDGETS (payload : list Budget)
| ADD_BUDGET (payload : Budget)
| UPDATE_BUDGET (payload : Budget)
| DELETE_BUDGET (payload : Z)
| SET_LOADING (payload : bool)
| SET_ERROR (payload : string)
| CLEAR_ERROR.

Definition budgetsReducer (state : State) (action : Action) : State :=
  match action with
  | LOAD_BUDGETS payload =>
      {| budgets := payload; isLoading := false; error := None |}
  | ADD_BUDGET payload =>
      {| budgets := budgets state ++ [payload];
         isLoading := false; error := None |}
  | UPDATE_BUDGET payload =>
      {| budgets :=
           map (fun budget =>
                  if id budget =? id payload then payload else budget)
               (budgets state);
         isLoading := false; error := None |}
  | DELETE_BUDGET payload =>
      {| budgets :=
           filter (fun budget => negb (id budget =? payload))
                  (budgets state);
         isLoading := false; error := None |}
  | SET_LOADING payload =>
      {| budgets := budgets state; isLoading := payload;
         error := error state |}
  | SET_ERROR payload =>
      {| budgets := budgets state; isLoading := false;
         error := Some payload |}
  | CLEAR_ERROR =>
      {| budgets := budgets state; isLoading := isLoading state;
         error := None |}
  end.

Local Open Scope async_scope.

Definition dispatch (action : Action) : Async.M State unit :=
  Async.modify (fun state => budgetsReducer state action).

(** [response] is the outcome of [api.post('/orcamentos', budgetData)]. *)
Definition addBudget (response : Async.ApiResult Budget)
  : Async.M State Budget :=
  Async.try_catch
    (dispatch (SET_LOADING true) ;;;
     newBudget <- Async.await response ;;
     dispatch (ADD_BUDGET newBudget) ;;;
     Async.ret newBudget)
    (fun mensagem =>
       dispatch (SET_ERROR mensagem) ;;;
       Async.throw mensagem).

(** [response] is the outcome of [api.put('/orcamentos/<id>', updates)]. *)
Definition updateBudget (response : Async.ApiResult Budget)
  : Async.M State Budget :=
  Async.try_catch
    (dispatch (SET_LOADING true) ;;;
     updatedBudget <- Async.await response ;;
     dispatch (UPDATE_BUDGET updatedBudget) ;;;
     Async.ret updatedBudget)
    (fun mensagem =>
       dispatch (SET_ERROR mensagem) ;;;
       Async.throw mensagem).

(** [response] is the outcome of [api.delete('/orcamentos/<id>')]. *)
Definition deleteBudget (budgetId : Z) (response : Async.ApiResult unit)
  : Async.M State unit :=
  Async.try_catch
    (dispatch (SET_LOADING true) ;;;
     Async.await response ;;;
     dispatch (DELETE_BUDGET budgetId))
    (fun mensagem =>
       dispatch (SET_ERROR mensagem) ;;;
       Async.throw mensagem).

(** The filter of [getCategorySpent]: the date lies between the two
    bounds and the transaction is an expense. *)
Definition spentFilter (startDate endDate : JSDate.Date)
    (transaction : TransactionsContext.Transaction) : bool :=
  let transactionDate := TransactionsContext.date transaction in
  JSDate.ge transactionDate startDate
  && JSDate.le transactionDate endDate
  && (TransactionsContext.type transaction
      =? TransactionsContext.EXPENSE)%string.

(** [txs] is the state of the transactions provider, which the budgets
    provider reads through [getTransactionsByCategory]. *)
Definition getCategorySpent (txs : TransactionsContext.State)
    (categoryId : string) (year month : Z) : Q :=
  let startDate := JSDate.newDate year (month - 1) 1 0 0 0 0 in
  let endDate := JSDate.newDate year month 0 23 59 59 0 in
  let transactions :=
    TransactionsContext.getTransactionsByCategory txs categoryId in
  JS.reduce_sum TransactionsContext.amount
    (filter (spentFilter startDate endDate) transactions).

Definition getBudgetStatus (txs : TransactionsContext.State)
    (budget : Budget) : string :=
  let spent :=
    getCategorySpent txs (categoryId budget) (year budget) (month budget) in
  let percentage := JS.mul (JS.div spent (amount budget)) (JS.Num 100) in
  if JS.ge percentage (JS.Num 100) then EXCEEDED
  else if JS.ge percentage (JS.Num 80) then WARNING
  else ON_TRACK.

(** A budget together with the derived fields; [budget] stands for the
    spread [...budget]. *)
Record BudgetWithSpent : Type := mkBudgetWithSpent {
  budget : Budget;
  spent : Q;
  remaining : Q;
  percentage : JS.JSNum;
  status : string
}.

Definition getBudgetsWithSpent (state : State)
    (txs : TransactionsContext.State) : list BudgetWithSpent :=
  map (fun budget =>
         let spent :=
           getCategorySpent txs (categoryId budget) (year budget)
                            (month budget) in
         let remaining := (amount budget - spent)%Q in
         let percentage :=
           JS.mul (JS.div spent (amount budget)) (JS.Num 100) in
         let status := getBudgetStatus txs budget in
         {| budget := budget;
            spent := spent;
            remaining := remaining;
            percentage := JS.min percentage (JS.Num 100);
            status := status |})
      (budgets state).

Definition getTotalBudgeted (state : State) (y m : Z) : Q :=
  JS.reduce_sum amount
    (filter (fun budget =>
               (year budget =? y) && (month budget =? m)
               && isActive budget)
            (budgets state)).

Definition getTotalSpent (state : State) (txs : TransactionsContext.State)
    (y m : Z) : Q :=
  fold_left
    (fun total budget =>
       let spent :=
         getCategorySpent txs (categoryId budget) (year budget)
                          (month budget) in
       (total + spent)%Q)
    (filter (fun budget =>
               (year budget =? y) && (month budget =? m)
               && isActive budget)
            (budgets state))
    0%Q.

(** [response] is the outcome of [api.get('/orcamentos')]; the failure is
    logged and kept in the store, not thrown. *)
Definition loadBudgets (user : option AuthContext.User)
    (response : Async.ApiResult (list Budget)) : Async.M State unit :=
  if AuthContext.hasId user then
    dispatch (SET_LOADING true) ;;;
    Async.try_catch
      (loaded <- Async.await response ;;
       dispatch (LOAD_BUDGETS loaded))
      (fun mensagem => dispatch (SET_ERROR mensagem))
  else Async.ret tt.

Definition clearError : Async.M State unit := dispatch CLEAR_ERROR.

End BudgetsContext.

(* ================================================================= *)
(** ** BudgetForm.jsx *)

Module BudgetForm.

(** [Object.values(CATEGORIES.EXPENSE)]. *)
Definition expenseCategories : list Category.t :=
  TransactionsContext.CATEGORIES_EXPENSE.

Definition getSelectedCategory (watchedCategoryId : string)
  : option Category.t :=
  find (fun cat => (Category.id cat =? watchedCategoryId)%string)
       expenseCategories.

(** [getMonthOptions().map(m => m.value)]. *)
Definition monthValues : list Z := [1; 2; 3; 4; 5; 6; 7; 8; 9; 10; 11; 12].

(** [getYearOptions()], from the year of the clock. *)
Definition getYearOptions (currentYear : Z) : list Z :=
  map (fun i => currentYear + Z.of_nat i) (seq 0 3).

Section WithFields.

(** The values held by the form's fields and the numbers that
    [parseFloat] and [parseInt] make of them. *)
Variables FieldValue Number : Type.
Variable parseFloat : FieldValue -> Number.
Variable parseInt : FieldValue -> Number.

Record FormData : Type := mkFormData {
  name : string;
  categoryId : string;
  amount : FieldValue;
  year : FieldValue;
  month : FieldValue;
  description : string
}.

(** The body sent to the API: the form's data, the catalogue entry of the
    category, and the three parsed numbers. *)
Record BudgetData : Type := mkBudgetData {
  data : FormData;
  category : Category.t;
  parsedAmount : Number;
  parsedYear : Number;
  parsedMonth : Number
}.

Inductive Request : Type :=
| Post (body : BudgetData)
| Put (budgetId : Z) (body : BudgetData).

(** What a submission acts on: the budgets store, the requests sent so
    far (latest first) and the number of calls of [onSave]. *)
Record World : Type := mkWorld {
  store : BudgetsContext.State;
  requests : list Request;
  saved : nat
}.

Local Open Scope async_scope.

Definition inStore {A : Type} (c : Async.M BudgetsContext.State A)
  : Async.M World A :=
  fun w =>
    let (s, r) := c (store w) in
    ({| store := s; requests := requests w; saved := saved w |}, r).

Definition send (request : Request) : Async.M World unit :=
  Async.modify (fun w =>
    {| store := store w; requests := request :: requests w;
       saved := saved w |}).

Definition onSave : Async.M World unit :=
  Async.modify (fun w =>
    {| store := store w; requests := requests w; saved := S (saved w) |}).

(** [budget] is the budget being edited, if any; [response] is the
    outcome of the request that the submission sends. *)
Definition onSubmit (budget : option BudgetsContext.Budget)
    (formData : FormData) (response : Async.ApiResult BudgetsContext.Budget)
  : Async.M World unit :=
  Async.try_catch
    (match getSelectedCategory (categoryId formData) with
     | None => Async.ret tt
     | Some selectedCategory =>
         let budgetData :=
           {| data := formData;
              category := selectedCategory;
              parsedAmount := parseFloat (amount formData);
              parsedYear := parseInt (year formData);
              parsedMonth := parseInt (month formData) |} in
         match budget with
         | Some edited =>
             send (Put (BudgetsContext.id edited) budgetData) ;;;
             inStore (BudgetsContext.updateBudget response) ;;;
             onSave
         | None =>
             send (Post budgetData) ;;;
             inStore (BudgetsContext.addBudget response) ;;;
             onSave
         end
     end)
    (fun _ => Async.ret tt).

End WithFields.

End BudgetForm.

(* ================================================================= *)
(** ** Double arithmetic

    The numbers of the program are IEEE 754 doubles: the result of an
    operation is the exact result rounded to the nearest number with a
    53-bit mantissa, the one with an even mantissa when two are equally
    near. *)

Module Binary64.

(** [2 ^ e], for any integer [e]. *)
Definition pow2 (e : Z) : Q := (2 ^ e)%Q.

(** [floor (log2 q)], for a positive [q]. *)
Definition ilog2 (q : Q) : Z :=
  let k := Z.log2 (Qnum q) - Z.log2 (Zpos (Qden q)) in
  if Qle_bool (pow2 k) q then k else k - 1.

(** The integer nearest to [s], the even one of the two when [s] is half
    way. *)
Definition nearestEven (s : Q) : Z :=
  let f := Qfloor s in
  match (s - inject_Z f ?= 1 # 2)%Q with
  | Lt => f
  | Gt => f + 1
  | Eq => if Z.even f then f else f + 1
  end.

(** The double nearest to a positive [q]: with the exponent [e] that puts
    the mantissa [q / 2 ^ e] between [2 ^ 52] and [2 ^ 53], the mantissa
    rounded to an integer, times [2 ^ e]. *)
Definition roundPositive (q : Q) : Q :=
  let e := ilog2 q - 52 in
  (inject_Z (nearestEven (q / pow2 e)) * pow2 e)%Q.

(** The double nearest to [q], ties to the even mantissa. *)
Definition round (q : Q) : Q :=
  match (q ?= 0)%Q with
  | Eq => 0%Q
  | Gt => roundPositive q
  | Lt => (- roundPositive (- q))%Q
  end.


(** [a / b] on two doubles. *)
Definition div (a b : Q) : JS.JSNum :=
  match JS.div a b with
  | JS.Num q => JS.Num (round q)
  | other => other
  end.

(** [x * y]. *)
Definition mul (x y : JS.JSNum) : JS.JSNum :=
  match JS.mul x y with
  | JS.Num q => JS.Num (round q)
  | other => other
  end.

(** [array.reduce((total, x) => total + f(x), 0)], every addition
    rounded. *)
Definition reduce_sum {A : Type} (f : A -> Q) (l : list A) : Q :=
  fold_left (fun total x => round (total + f x)) l 0%Q.

(** [getCategorySpent] of BudgetsContext.jsx, the additions rounded. *)
Definition getCategorySpent (txs : TransactionsContext.State)
    (categoryId : string) (year month : Z) : Q :=
  let startDate := JSDate.newDate year (month - 1) 1 0 0 0 0 in
  let endDate := JSDate.newDate year month 0 23 59 59 0 in
  let transactions :=
    TransactionsContext.getTransactionsByCategory txs categoryId in
  reduce_sum TransactionsContext.amount
    (filter (BudgetsContext.spentFilter startDate endDate) transactions).

(** [getBudgetStatus] of BudgetsContext.jsx: the quotient is rounded, and
    so is its product by 100. *)
Definition getBudgetStatus (txs : TransactionsContext.State)
    (budget : BudgetsContext.Budget) : string :=
  let spent :=
    getCategorySpent txs (BudgetsContext.categoryId budget)
      (BudgetsContext.year budget) (BudgetsContext.month budget) in
  let percentage :=
    mul (div spent (BudgetsContext.amount budget)) (JS.Num 100) in
  if JS.ge percentage (JS.Num 100) then BudgetsContext.EXCEEDED
  else if JS.ge percentage (JS.Num 80) then BudgetsContext.WARNING
  else BudgetsContext.ON_TRACK.

(** The double that the decimal [n / d] denotes. *)
Definition decimal (n : Z) (d : positive) : Q := round (n # d).


End Binary64.

(* ================================================================= *)
(** ** The specification's vocabulary

    Definitions that follow the words of the specification rather than
    the text of the program; the theorems below compare the two. *)

Module Spec.

(** The sum of [f x] over exactly the elements [x] of [l] that satisfy
    [p]. *)
Fixpoint sum_over {A : Type} (p : A -> bool) (f : A -> Q) (l : list A)
  : Q :=
  match l with
  | [] => 0%Q
  | x :: rest =>
      if p x then (f x + sum_over p f rest)%Q else sum_over p f rest
  end.

(** The window of [getCategorySpent] in calendar terms: from day 1
    00:00:00.000 to 23:59:59.000 of the last day of month [month]
    (1 = January) of [year], both included.  The rest of that last second
    is outside it. *)
Definition inMonthWindow (year month : Z) (d : JSDate.Date) : bool :=
  let lastDay := JSDate.DaysInMonth year (month - 1) in
  JSDate.le (JSDate.newDate year (month - 1) 1 0 0 0 0) d
  && JSDate.le d (JSDate.newDate year (month - 1) lastDay 23 59 59 0).

(** The transactions that count towards the spending of a category in a
    month: category, month window and type, whatever the status. *)
Definition countsAsSpent (categoryId : string) (year month : Z)
    (t : TransactionsContext.Transaction) : bool :=
  (Category.id (TransactionsContext.category t) =? categoryId)%string
  && inMonthWindow year month (TransactionsContext.date t)
  && (TransactionsContext.type t =? "expense")%string.

Definition categorySpent (txs : TransactionsContext.State)
    (categoryId : string) (year month : Z) : Q :=
  sum_over (countsAsSpent categoryId year month)
           TransactionsContext.amount
           (TransactionsContext.transactions txs).

(** The same transaction with another status. *)
Definition withStatus (s : string) (t : TransactionsContext.Transaction)
  : TransactionsContext.Transaction :=
  {| TransactionsContext.id := TransactionsContext.id t;
     TransactionsContext.date := TransactionsContext.date t;
     TransactionsContext.amount := TransactionsContext.amount t;
     TransactionsContext.type := TransactionsContext.type t;
     TransactionsContext.category := TransactionsContext.category t;
     TransactionsContext.accountId := TransactionsContext.accountId t;
     TransactionsContext.status := s |}.

(** The store in which every transaction [t] has the status
    [relabel t]. *)
Definition relabelStatus
    (relabel : TransactionsContext.Transaction -> string)
    (txs : TransactionsContext.State) : TransactionsContext.State :=
  {| TransactionsContext.transactions :=
       map (fun t => withStatus (relabel t) t)
           (TransactionsContext.transactions txs);
     TransactionsContext.isLoading := TransactionsContext.isLoading txs;
     TransactionsContext.error := TransactionsContext.error txs |}.

(** A transaction of the given type and of status [completed] whose date
    lies between the two bounds, both included. *)
Definition completedInPeriod (type : string)
    (startDate endDate : JSDate.Date)
    (t : TransactionsContext.Transaction) : bool :=
  (TransactionsContext.type t =? type)%string
  && (TransactionsContext.status t =? "completed")%string
  && JSDate.le startDate (TransactionsContext.date t)
  && JSDate.le (TransactionsContext.date t) endDate.

Definition completedOfType (type : string)
    (t : TransactionsContext.Transaction) : bool :=
  (TransactionsContext.type t =? type)%string
  && (TransactionsContext.status t =? "completed")%string.

(** An active budget of the period [(y, m)]. *)
Definition activeIn (y m : Z) (b : BudgetsContext.Budget) : bool :=
  BudgetsContext.isActive b
  && (BudgetsContext.year b =? y) && (BudgetsContext.month b =? m).

(** An active credit account that carries debt. *)
Definition inDebt (a : AccountsContext.Account) : bool :=
  AccountsContext.isActive a
  && (AccountsContext.type a =? "credit")%string
  && negb (Qle_bool 0 (AccountsContext.balance a)).

(** An active account that is not a credit account. *)
Definition activeNonCredit (a : AccountsContext.Account) : bool :=
  AccountsContext.isActive a
  && negb (AccountsContext.type a =? "credit")%string.

(** The outcome [result] of a mutation started in the store [before]
    is a clean failure with [mensagem]: the message is the store's error,
    it is thrown to the caller, and the collection is the one of
    [before]. *)
Definition failsCleanly {S A C : Type} (collection : S -> C)
    (err : S -> option string) (before : S) (mensagem : string)
    (result : S * (string + A)) : Prop :=
  err (fst result) = Some mensagem
  /\ snd result = inl mensagem
  /\ collection (fst result) = collection before.

End Spec.

(* ================================================================= *)
(** ** Concrete stores *)

Module Examples.

Definition food : Category.t :=
  {| Category.id := "food"; Category.name := "Alimentacao";
     Category.icon := ""; Category.color := "#e67e22" |}.

Definition expense (i : Z) (d : JSDate.Date) (a : Q) (st : string)
  : TransactionsContext.Transaction :=
  {| TransactionsContext.id := i;
     TransactionsContext.date := d;
     TransactionsContext.amount := a;
     TransactionsContext.type := "expense";
     TransactionsContext.category := food;
     TransactionsContext.accountId := 1;
     TransactionsContext.status := st |}.

Definition store (l : list TransactionsContext.Transaction)
  : TransactionsContext.State :=
  {| TransactionsContext.transactions := l;
     TransactionsContext.isLoading := false;
     TransactionsContext.error := None |}.

(** One expense of 100 dated 2024-03-31 23:59:59.999. *)
Definition lastMillisecondOfMarch : TransactionsContext.State :=
  store [expense 1 (JSDate.newDate 2024 2 31 23 59 59 999) 100
           "completed"].

(** Two expenses of March 2024, one of them pending, and one of
    February. *)
Definition march : TransactionsContext.State :=
  store [expense 1 (JSDate.newDate 2024 2 10 12 0 0 0) 200 "completed";
         expense 2 (JSDate.newDate 2024 2 20 12 0 0 0) 150 "pending";
         expense 3 (JSDate.newDate 2024 1 20 12 0 0 0) 100 "completed"].

Definition foodBudget (i : Z) (a : Q) : BudgetsContext.Budget :=
  {| BudgetsContext.id := i;
     BudgetsContext.name := "Mercado";
     BudgetsContext.categoryId := "food";
     BudgetsContext.amount := a;
     BudgetsContext.year := 2024;
     BudgetsContext.month := 3;
     BudgetsContext.isActive := true;
     BudgetsContext.description := "" |}.

(** The budget of the specification's scenarios: a ceiling of 500 on
    [food] for March 2024. *)
Definition budget500 : BudgetsContext.Budget := foodBudget 1 500.

Definition budgetStore (l : list BudgetsContext.Budget)
  : BudgetsContext.State :=
  {| BudgetsContext.budgets := l;
     BudgetsContext.isLoading := false;
     BudgetsContext.error := None |}.

Definition provider (l : list TransactionsContext.Transaction)
  : TransactionsContext.Provider :=
  {| TransactionsContext.state := store l;
     TransactionsContext.accountReloads := 0 |}.

(** One credit card at -300 and one at +50, both active. *)
Definition twoCards : AccountsContext.State :=
  {| AccountsContext.accounts :=
       [AccountsContext.mkAccount 1 "credit" (-300) true;
        AccountsContext.mkAccount 2 "credit" 50 true];
     AccountsContext.isLoading := false;
     AccountsContext.error := None |}.

End Examples.

(* ================================================================= *)
(** ** Further vocabulary and concrete data *)

Module Derived.

(** The order of the three statuses: [on_track], then [warning], then
    [exceeded]. *)
Definition statusRank (status : string) : Z :=
  if (status =? BudgetsContext.EXCEEDED)%string then 2
  else if (status =? BudgetsContext.WARNING)%string then 1
  else 0.

End Derived.

Module SessionExamples.

(** A user and a toy serialisation that keeps the e-mail address. *)
Definition ana : AuthContext.User :=
  {| AuthContext.id := 7; AuthContext.name := "Ana";
     AuthContext.email := "ana@example.org" |}.

Definition stringifyEmail (u : AuthContext.User) : string :=
  AuthContext.email u.

Definition parseEmail (text : string) : option (option AuthContext.User) :=
  if (text =? "ana@example.org")%string then Some (Some ana) else None.

Definition emptyStorage : AuthContext.Storage := fun _ => None.

Definition freshProvider : AuthContext.Provider :=
  {| AuthContext.state := AuthContext.initialState;
     AuthContext.localStorage := emptyStorage |}.

End SessionExamples.

Module FormExamples.

Definition foodForm : BudgetForm.FormData string :=
  {| BudgetForm.name := "Mercado"; BudgetForm.categoryId := "food";
     BudgetForm.amount := "500"%string; BudgetForm.year := "2024"%string;
     BudgetForm.month := "3"%string; BudgetForm.description := "" |}.

Definition salaryForm : BudgetForm.FormData string :=
  {| BudgetForm.name := "Salario"; BudgetForm.categoryId := "salary";
     BudgetForm.amount := "500"%string; BudgetForm.year := "2024"%string;
     BudgetForm.month := "3"%string; BudgetForm.description := "" |}.

Definition emptyWorld : BudgetForm.World string string :=
  {| BudgetForm.store := BudgetsContext.initialState;
     BudgetForm.requests := []; BudgetForm.saved := 0 |}.

End FormExamples.

Module Calendar.

(** [a < b] on two dates. *)
Definition before (a b : JSDate.Date) : bool :=
  match a, b with
  | Some x, Some y => x <? y
  | _, _ => false
  end.

(** The calendar month [month] (1 = January) of [year]: from the first
    instant of its day 1 up to, and not including, the first instant of
    the following month. *)
Definition inCalendarMonth (year month : Z) (d : JSDate.Date) : bool :=
  JSDate.le (JSDate.newDate year (month - 1) 1 0 0 0 0) d
  && before d (JSDate.newDate year month 1 0 0 0 0).

(** The sum of [amount] over the expenses of a category dated in a
    calendar month, whatever their status. *)
Definition calendarMonthSpent (txs : TransactionsContext.State)
    (categoryId : string) (year month : Z) : Q :=
  Spec.sum_over
    (fun t =>
       (Category.id (TransactionsContext.category t) =? categoryId)%string
       && inCalendarMonth year month (TransactionsContext.date t)
       && (TransactionsContext.type t =? "expense")%string)
    TransactionsContext.amount
    (TransactionsContext.transactions txs).

(** One pending expense of 100 dated 2024-03-31 23:59:59.500. *)
Definition lastHalfSecondOfMarch : TransactionsContext.State :=
  Examples.store
    [Examples.expense 1 (JSDate.newDate 2024 2 31 23 59 59 500) 100
       "pending"].

(** One expense of 100 dated 1950-03-10. *)
Definition march1950 : TransactionsContext.State :=
  Examples.store
    [Examples.expense 1 (JSDate.newDate 1950 2 10 12 0 0 0) 100
       "completed"].

End Calendar.

Module Sample.

(** One expense of 2.40 in March 2024, and a ceiling of 3. *)
Definition smallExpense : TransactionsContext.State :=
  Examples.store
    [Examples.expense 1 (JSDate.newDate 2024 2 10 12 0 0 0) (Binary64.decimal 24 10)
       "completed"].

Definition smallBudget : BudgetsContext.Budget := Examples.foodBudget 1 3.

(** One expense of 16.08 in March 2024, and a ceiling of 20.10. *)
Definition roundedDown : TransactionsContext.State :=
  Examples.store
    [Examples.expense 1 (JSDate.newDate 2024 2 10 12 0 0 0)
       (Binary64.decimal 1608 100) "completed"].

Definition roundedDownBudget : BudgetsContext.Budget :=
  Examples.foodBudget 1 (Binary64.decimal 2010 100).

End Sample.

(* ================================================================= *)
(** * Properties *)

(** ** Sums *)

Section Sums.

Context {A : Type}.
Variable f : A -> Q.

Lemma fold_sum_shift (l : list A) (a : Q) :
  (fold_left (fun total x => total + f x) l a
   == a + fold_left (fun total x => total + f x) l 0)%Q.
Proof.
  revert a; induction l as [|x l IH]; intro a; simpl.
  - ring.
  - rewrite IH, (IH (0 + f x)%Q). ring.
Qed.

Lemma reduce_sum_cons (x : A) (l : list A) :
  (JS.reduce_sum f (x :: l) == f x + JS.reduce_sum f l)%Q.
Proof.
  unfold JS.reduce_sum; simpl. rewrite fold_sum_shift. ring.
Qed.

Lemma reduce_sum_filter (p : A -> bool) (l : list A) :
  (JS.reduce_sum f (filter p l) == Spec.sum_over p f l)%Q.
Proof.
  induction l as [|x l IH]; simpl.
  - reflexivity.
  - destruct (p x); [rewrite reduce_sum_cons, IH|]; auto with qarith.
Qed.

Lemma sum_over_ext (p q : A -> bool) (l : list A) :
  (forall x, In x l -> p x = q x) ->
  Spec.sum_over p f l = Spec.sum_over q f l.
Proof.
  induction l as [|x l IH]; simpl; intro H; [reflexivity|].
  rewrite (H x (or_introl eq_refl)), IH; auto.
Qed.

End Sums.

Lemma filter_filter {A : Type} (p q : A -> bool) (l : list A) :
  filter p (filter q l) = filter (fun x => q x && p x) l.
Proof.
  induction l as [|x l IH]; simpl; [reflexivity|].
  destruct (q x); simpl; [destruct (p x)|]; rewrite IH; reflexivity.
Qed.

Lemma filter_drop {A : Type} (p : A -> bool) (l1 l2 : list A) (x : A) :
  p x = false -> filter p (l1 ++ x :: l2) = filter p (l1 ++ l2).
Proof.
  intro H. rewrite !filter_app. simpl. rewrite H. reflexivity.
Qed.

Lemma Qlt_bool_iff (a b : Q) : JS.Qlt_bool a b = true <-> (a < b)%Q.
Proof.
  unfold JS.Qlt_bool. rewrite negb_true_iff.
  split; intro H.
  - apply Qnot_le_lt. intro Hle. apply Qle_bool_iff in Hle. congruence.
  - destruct (Qle_bool b a) eqn:E; [|reflexivity].
    apply Qle_bool_iff in E. exfalso. eapply Qlt_not_le; eauto.
Qed.

Lemma sum_over_ext_f {A : Type} (p : A -> bool) (f g : A -> Q) (l : list A) :
  (forall x, p x = true -> f x = g x) ->
  Spec.sum_over p f l = Spec.sum_over p g l.
Proof.
  intro H. induction l as [|x l IH]; simpl; [reflexivity|].
  destruct (p x) eqn:E; [rewrite (H x E), IH|]; auto.
Qed.

Lemma fold_sum_map_filter {A : Type} (f : A -> Q) (p : A -> bool)
    (g : A -> A) (l : list A) (a : Q) :
  (forall x, p (g x) = p x) ->
  (forall x, f (g x) = f x) ->
  fold_left (fun total x => total + f x)%Q (filter p (map g l)) a
  = fold_left (fun total x => total + f x)%Q (filter p l) a.
Proof.
  intros Hp Hf. revert a.
  induction l as [|x l IH]; intro a; simpl; [reflexivity|].
  rewrite Hp. destruct (p x); simpl; [rewrite Hf|]; apply IH.
Qed.

(* ================================================================= *)
(** ** AccountsContext *)

(** C9: [getTotalBalance] is the sum of [balance] over exactly the active
    accounts whose type is not [credit]; a credit account, whatever its
    balance and wherever it stands in the collection, leaves the total as
    it is. *)
Theorem getTotalBalance_sums_active_non_credit :
  (forall st : AccountsContext.State,
     (AccountsContext.getTotalBalance st
      == Spec.sum_over Spec.activeNonCredit AccountsContext.balance
           (AccountsContext.accounts st))%Q)
  /\ (forall (before after : list AccountsContext.Account)
        (i : Z) (b : Q) (active loading : bool) (err : option string),
        AccountsContext.getTotalBalance
          (AccountsContext.mkState
             (before ++ AccountsContext.mkAccount i "credit" b active :: after)
             loading err)
        = AccountsContext.getTotalBalance
            (AccountsContext.mkState (before ++ after) loading err)).
Proof.
  split.
  - intro st. unfold AccountsContext.getTotalBalance.
    rewrite reduce_sum_filter. reflexivity.
  - intros. unfold AccountsContext.getTotalBalance. simpl.
    rewrite filter_drop; [reflexivity|].
    simpl. apply andb_false_r.
Qed.

Lemma sum_over_nonpos {A : Type} (p : A -> bool) (f : A -> Q) (l : list A) :
  (forall x, p x = true -> (f x < 0)%Q) ->
  (Spec.sum_over p f l <= 0)%Q.
Proof.
  intro H. induction l as [|x l IH]; simpl.
  - apply Qle_refl.
  - destruct (p x) eqn:E; [|exact IH].
    specialize (H x E). lra.
Qed.

Lemma getTotalDebt_abs_sum (st : AccountsContext.State) :
  (AccountsContext.getTotalDebt st
   == Qabs (Spec.sum_over Spec.inDebt AccountsContext.balance
              (AccountsContext.accounts st)))%Q.
Proof.
  unfold AccountsContext.getTotalDebt.
  rewrite reduce_sum_filter. reflexivity.
Qed.

(** C8: [getTotalDebt] is the absolute value of the sum of the balances of
    exactly the active credit accounts with a negative balance; a credit
    account with a balance of zero or more contributes nothing; on one
    card at -300 and one at +50 the result is 300. *)
Theorem getTotalDebt_abs_of_negative_credit :
  (forall st : AccountsContext.State,
     (AccountsContext.getTotalDebt st
      == Qabs (Spec.sum_over Spec.inDebt AccountsContext.balance
                 (AccountsContext.accounts st)))%Q)
  /\ (forall (before after : list AccountsContext.Account)
        (i : Z) (b : Q) (active loading : bool) (err : option string),
        (0 <= b)%Q ->
        AccountsContext.getTotalDebt
          (AccountsContext.mkState
             (before ++ AccountsContext.mkAccount i "credit" b active :: after)
             loading err)
        = AccountsContext.getTotalDebt
            (AccountsContext.mkState (before ++ after) loading err))
  /\ (AccountsContext.getTotalDebt Examples.twoCards == 300)%Q.
Proof.
  split; [|split].
  - exact getTotalDebt_abs_sum.
  - intros before after i b active loading err Hb.
    unfold AccountsContext.getTotalDebt. simpl.
    rewrite filter_drop; [reflexivity|].
    simpl. apply Qle_bool_iff in Hb. unfold JS.Qlt_bool. rewrite Hb.
    apply andb_false_r.
  - reflexivity.
Qed.

Lemma getTotalDebt_abs_of_negative_credit_witness :
  (0 <= 50)%Q
  /\ AccountsContext.getTotalDebt
       (AccountsContext.mkState
          ([AccountsContext.mkAccount 1 "credit" (-300) true]
           ++ AccountsContext.mkAccount 2 "credit" 50 true :: [])
          false None)
     = AccountsContext.getTotalDebt
         (AccountsContext.mkState
            ([AccountsContext.mkAccount 1 "credit" (-300) true] ++ [])
            false None).
Proof.
  split; [discriminate|].
  apply (proj1 (proj2 getTotalDebt_abs_of_negative_credit)).
  discriminate.
Defined.

(** X28: [getTotalDebt] is the sum of what the active credit accounts
    with a negative balance owe, the sum of [- balance] over them. *)
Lemma getTotalDebt_sums_debts (st : AccountsContext.State) :
  (AccountsContext.getTotalDebt st
   == - Spec.sum_over Spec.inDebt AccountsContext.balance
          (AccountsContext.accounts st))%Q.
Proof.
  rewrite getTotalDebt_abs_sum.
  apply Qabs_neg. apply sum_over_nonpos.
  intros a Ha. unfold Spec.inDebt in Ha.
  apply andb_true_iff in Ha as [_ Ha]. apply Qlt_bool_iff. exact Ha.
Qed.

(* ================================================================= *)
(** ** The calendar *)

Lemma div_succ (a d : Z) :
  0 < d ->
  (a + 1) / d = a / d + (if (a + 1) mod d =? 0 then 1 else 0).
Proof.
  intro Hd. destruct (Z.eqb_spec ((a + 1) mod d) 0);
    Z.to_euclidean_division_equations; nia.
Qed.

Lemma mod_shift (y k d : Z) :
  0 < d -> ((y - k * d) mod d =? 0) = (y mod d =? 0).
Proof.
  intro Hd. replace (y - k * d) with (y + (- k) * d) by ring.
  rewrite Z.mod_add by lia. reflexivity.
Qed.

Lemma mod_multiple (y d k : Z) :
  0 < d -> 0 < k -> y mod (k * d) = 0 -> y mod d = 0.
Proof.
  intros Hd Hk H. apply Z.mod_divide in H; [|lia].
  apply Z.mod_divide; [lia|].
  destruct H as [c ->]. exists (c * k). ring.
Qed.

Lemma DayFromYear_succ (y : Z) :
  JSDate.DayFromYear (y + 1)
  = JSDate.DayFromYear y + 365 + JSDate.InLeapYear y.
Proof.
  unfold JSDate.DayFromYear, JSDate.InLeapYear, JSDate.DaysInYear.
  replace (y + 1 - 1970) with (y - 1969) by lia.
  replace (y + 1 - 1969) with (y - 1969 + 1) by lia.
  replace (y + 1 - 1901) with (y - 1901 + 1) by lia.
  replace (y + 1 - 1601) with (y - 1601 + 1) by lia.
  rewrite !div_succ by lia.
  replace (y - 1969 + 1) with (y - 492 * 4) by lia.
  replace (y - 1901 + 1) with (y - 19 * 100) by lia.
  replace (y - 1601 + 1) with (y - 4 * 400) by lia.
  rewrite !mod_shift by lia.
  pose proof (mod_multiple y 4 25 ltac:(lia) ltac:(lia)) as H100.
  pose proof (mod_multiple y 100 4 ltac:(lia) ltac:(lia)) as H400.
  change (25 * 4) with 100 in H100. change (4 * 100) with 400 in H400.
  destruct (Z.eqb_spec (y mod 4) 0);
    destruct (Z.eqb_spec (y mod 100) 0);
    destruct (Z.eqb_spec (y mod 400) 0);
    cbn [negb Z.eqb Pos.eqb]; lia.
Qed.

Ltac eval_month_arith :=
  repeat match goal with
         | |- context [Z.pos ?a / 12] =>
             let v := eval vm_compute in (Z.pos a / 12) in
             change (Z.pos a / 12) with v
         | |- context [Z.pos ?a mod 12] =>
             let v := eval vm_compute in (Z.pos a mod 12) in
             change (Z.pos a mod 12) with v
         | |- context [Z.pos ?a - 1] =>
             let v := eval vm_compute in (Z.pos a - 1) in
             change (Z.pos a - 1) with v
         | |- context [0 / 12] => change (0 / 12) with 0
         | |- context [0 mod 12] => change (0 mod 12) with 0
         end.

Lemma MakeDay_day_zero (y m : Z) :
  1 <= m <= 12 ->
  JSDate.MakeDay y m 0
  = JSDate.MakeDay y (m - 1) (JSDate.DaysInMonth y (m - 1)).
Proof.
  intro Hm.
  assert (Hcases : m = 1 \/ m = 2 \/ m = 3 \/ m = 4 \/ m = 5 \/ m = 6 \/
                   m = 7 \/ m = 8 \/ m = 9 \/ m = 10 \/ m = 11 \/ m = 12)
    by lia.
  unfold JSDate.MakeDay, JSDate.DaysInMonth, JSDate.monthStart.
  repeat (destruct Hcases as [-> | Hcases]); try subst m;
    eval_month_arith;
    cbn [Z.eqb Pos.eqb orb];
    rewrite ?Z.add_0_r, ?DayFromYear_succ; lia.
Qed.

Lemma newDate_day_zero (y m h mi s ms : Z) :
  y < 0 \/ 99 < y ->
  1 <= m <= 12 ->
  JSDate.newDate y m 0 h mi s ms
  = JSDate.newDate y (m - 1) (JSDate.DaysInMonth y (m - 1)) h mi s ms.
Proof.
  intros Hy Hm. unfold JSDate.newDate.
  replace ((0 <=? y) && (y <=? 99)) with false
    by (symmetry; apply andb_false_iff; lia).
  rewrite MakeDay_day_zero by assumption. reflexivity.
Qed.

(* ================================================================= *)
(** ** TransactionsContext *)

Section TransactionTotals.

Import TransactionsContext.

(** X9: for a month from 1 to 12 of a year outside 0..99,
    [getCategorySpent] is the sum of [amount] over exactly the stored
    transactions of the category, of type [expense] and dated from day 1
    00:00:00.000 to the last day 23:59:59.000 of the month, both included;
    the status plays no part: giving the transactions any other statuses
    leaves the result as it is. *)
Theorem getCategorySpent_sums_category_month_expenses
    (txs : State) (categoryId : string) (year month : Z) :
  year < 0 \/ 99 < year ->
  1 <= month <= 12 ->
  (BudgetsContext.getCategorySpent txs categoryId year month
   == Spec.categorySpent txs categoryId year month)%Q
  /\ forall relabel : Transaction -> string,
       BudgetsContext.getCategorySpent (Spec.relabelStatus relabel txs)
         categoryId year month
       = BudgetsContext.getCategorySpent txs categoryId year month.
Proof.
  intros Hy Hm. split.
  - unfold BudgetsContext.getCategorySpent, getTransactionsByCategory,
      Spec.categorySpent.
    rewrite filter_filter, reduce_sum_filter.
    rewrite (newDate_day_zero year month 23 59 59 0 Hy Hm).
    erewrite sum_over_ext; [reflexivity|].
    intros t _. unfold Spec.countsAsSpent, Spec.inMonthWindow,
      BudgetsContext.spentFilter, JSDate.ge.
    cbv zeta. now rewrite !andb_assoc.
  - intro relabel.
    unfold BudgetsContext.getCategorySpent, getTransactionsByCategory,
      Spec.relabelStatus, JS.reduce_sum.
    cbn [transactions]. rewrite !filter_filter.
    apply fold_sum_map_filter; reflexivity.
Qed.

Lemma getCategorySpent_sums_category_month_expenses_witness :
  (2024 < 0 \/ 99 < 2024)
  /\ 1 <= 3 <= 12
  /\ (BudgetsContext.getCategorySpent Examples.march "food" 2024 3
      == Spec.categorySpent Examples.march "food" 2024 3)%Q
  /\ forall relabel : Transaction -> string,
       BudgetsContext.getCategorySpent
         (Spec.relabelStatus relabel Examples.march) "food" 2024 3
       = BudgetsContext.getCategorySpent Examples.march "food" 2024 3.
Proof.
  split; [right; lia|]. split; [lia|].
  apply (getCategorySpent_sums_category_month_expenses
           Examples.march "food" 2024 3); [right|]; lia.
Defined.

(** C6: with both bounds given, [getTotalIncome] (resp.
    [getTotalExpenses]) is the sum of [amount] over the transactions of
    type [income] (resp. [expense]), of status [completed] and dated
    between the bounds, both included; as soon as a bound is missing the
    sum ranges over all the transactions of that type and status. *)
Theorem totals_sum_completed_of_type_in_period (st : State) :
  (forall s e : JSDate.Date,
     (getTotalIncome st (Some s) (Some e)
      == Spec.sum_over (Spec.completedInPeriod "income" s e) amount
           (transactions st))%Q
     /\ (getTotalExpenses st (Some s) (Some e)
         == Spec.sum_over (Spec.completedInPeriod "expense" s e) amount
              (transactions st))%Q)
  /\ (forall e : option JSDate.Date,
        (getTotalIncome st None e
         == Spec.sum_over (Spec.completedOfType "income") amount
              (transactions st))%Q
        /\ (getTotalExpenses st None e
            == Spec.sum_over (Spec.completedOfType "expense") amount
                 (transactions st))%Q)
  /\ (forall s : option JSDate.Date,
        (getTotalIncome st s None
         == Spec.sum_over (Spec.completedOfType "income") amount
              (transactions st))%Q
        /\ (getTotalExpenses st s None
            == Spec.sum_over (Spec.completedOfType "expense") amount
                 (transactions st))%Q).
Proof.
  assert (Hperiod : forall (ty : string) (s e : JSDate.Date),
    (JS.reduce_sum amount
       (filter (fun t => (type t =? ty)%string
                         && (status t =? COMPLETED)%string)
               (getTransactionsByPeriod st s e))
     == Spec.sum_over (Spec.completedInPeriod ty s e) amount
          (transactions st))%Q).
  { intros ty s e. unfold getTransactionsByPeriod.
    rewrite filter_filter, reduce_sum_filter.
    erewrite sum_over_ext; [reflexivity|].
    intros t _. unfold Spec.completedInPeriod, JSDate.ge, COMPLETED.
    cbv zeta.
    destruct (type t =? ty)%string, (status t =? "completed")%string,
      (JSDate.le s (date t)), (JSDate.le (date t) e); reflexivity. }
  assert (Hall : forall ty : string,
    (JS.reduce_sum amount
       (filter (fun t => (type t =? ty)%string
                         && (status t =? COMPLETED)%string)
               (transactions st))
     == Spec.sum_over (Spec.completedOfType ty) amount (transactions st))%Q).
  { intro ty. rewrite reduce_sum_filter. reflexivity. }
  split; [|split].
  - intros s e. split; apply Hperiod.
  - intro e. split; apply Hall.
  - intros [s|]; split; apply Hall.
Qed.

End TransactionTotals.

(* ================================================================= *)
(** ** BudgetsContext *)

Section BudgetDerivation.

Import BudgetsContext.

(** C7: [getTotalSpent] is the sum, over the active budgets of the
    period, of [getCategorySpent] of each budget's category; two active
    budgets of the same period on the same category count the category's
    spending twice. *)
Theorem getTotalSpent_sums_per_budget_without_dedup
    (txs : TransactionsContext.State) (y m : Z) :
  (forall st : BudgetsContext.State,
     (getTotalSpent st txs y m
      == Spec.sum_over (Spec.activeIn y m)
           (fun b => getCategorySpent txs (categoryId b) y m)
           (budgets st))%Q)
  /\ (forall (id1 id2 : Z) (name1 name2 desc1 desc2 cat : string)
        (amount1 amount2 : Q) (loading : bool) (err : option string),
        (getTotalSpent
           (BudgetsContext.mkState
              [mkBudget id1 name1 cat amount1 y m true desc1;
               mkBudget id2 name2 cat amount2 y m true desc2]
              loading err)
           txs y m
         == 2 * getCategorySpent txs cat y m)%Q).
Proof.
  assert (Hgen : forall st : BudgetsContext.State,
     (getTotalSpent st txs y m
      == Spec.sum_over (Spec.activeIn y m)
           (fun b => getCategorySpent txs (categoryId b) y m)
           (budgets st))%Q).
  { intro st. unfold getTotalSpent.
    change (fold_left _ ?l 0%Q)
      with (JS.reduce_sum
              (fun b => getCategorySpent txs (categoryId b) (year b) (month b))
              l).
    rewrite reduce_sum_filter.
    erewrite sum_over_ext;
      [erewrite sum_over_ext_f; [reflexivity|]|].
    - intros b Hb. unfold Spec.activeIn in Hb.
      apply andb_true_iff in Hb as [Hb Hmo].
      apply andb_true_iff in Hb as [_ Hye].
      apply Z.eqb_eq in Hye, Hmo. rewrite Hye, Hmo. reflexivity.
    - intros b _. unfold Spec.activeIn.
      destruct (year b =? y), (month b =? m), (isActive b); reflexivity. }
  split; [exact Hgen|].
  intros. rewrite Hgen. cbn [budgets Spec.sum_over].
  unfold Spec.activeIn. cbn [isActive year month categoryId].
  rewrite !Z.eqb_refl. cbn [andb]. ring.
Qed.

(** ** Percentages *)

Lemma div_positive (s a : Q) :
  (0 < a)%Q -> JS.div s a = JS.Num (s / a).
Proof.
  intro Ha. unfold JS.div.
  destruct (Qeq_bool a 0) eqn:E; [|reflexivity].
  apply Qeq_bool_iff in E. rewrite E in Ha. discriminate Ha.
Qed.

Lemma percentage_ge (s a k : Q) :
  (0 < a)%Q -> (k <= s / a * 100 <-> k * a <= 100 * s)%Q.
Proof.
  intro Ha.
  assert (Hne : ~ (a == 0)%Q) by (intro E; rewrite E in Ha; discriminate Ha).
  assert (E : (s / a * 100 * a == 100 * s)%Q) by (field; exact Hne).
  rewrite <- E. symmetry. apply Qmult_le_r. exact Ha.
Qed.


Lemma min_100_not_above (x : JS.JSNum) :
  JS.gt (JS.min x (JS.Num 100)) (JS.Num 100) = false.
Proof.
  destruct x as [a| | |]; cbn [JS.min JS.gt]; try reflexivity.
  destruct (Qle_bool a 100) eqn:E; cbn [JS.gt]; unfold JS.Qlt_bool.
  - rewrite E. reflexivity.
  - reflexivity.
Qed.

(** C4: [getBudgetsWithSpent] gives one record per stored budget, with
    [remaining = amount - spent] and
    [percentage = Math.min(spent / amount * 100, 100)]; no record has a
    percentage above 100, whatever the budgets and the transactions. *)
Theorem getBudgetsWithSpent_percentage_capped
    (st : State) (txs : TransactionsContext.State) :
  map budget (getBudgetsWithSpent st txs) = budgets st
  /\ Forall
       (fun r =>
          spent r
          = getCategorySpent txs (categoryId (budget r)) (year (budget r))
              (month (budget r))
          /\ remaining r = (amount (budget r) - spent r)%Q
          /\ percentage r
             = JS.min (JS.mul (JS.div (spent r) (amount (budget r)))
                              (JS.Num 100))
                      (JS.Num 100)
          /\ JS.gt (percentage r) (JS.Num 100) = false)
       (getBudgetsWithSpent st txs).
Proof.
  unfold getBudgetsWithSpent. split.
  - rewrite map_map. cbn [budget]. apply map_id.
  - apply Forall_map. apply Forall_forall. intros b _. cbn.
    repeat split. apply min_100_not_above.
Qed.

(** C5: when the API call of [addBudget], [updateBudget], [deleteBudget],
    [addTransaction], [updateTransaction] or [deleteTransaction] fails,
    the message becomes the store's [error], it is thrown to the caller,
    and the collection is the one the operation started from. *)
Theorem failed_mutation_leaves_collection :
  (forall (st : State) (mensagem : string),
      Spec.failsCleanly budgets error st mensagem
        (addBudget (inl mensagem) st)
      /\ Spec.failsCleanly budgets error st mensagem
           (updateBudget (inl mensagem) st)
      /\ forall budgetId : Z,
           Spec.failsCleanly budgets error st mensagem
             (deleteBudget budgetId (inl mensagem) st))
  /\ (forall (p : TransactionsContext.Provider) (mensagem : string),
        let collection q :=
          TransactionsContext.transactions (TransactionsContext.state q) in
        let err q :=
          TransactionsContext.error (TransactionsContext.state q) in
        Spec.failsCleanly collection err p mensagem
          (TransactionsContext.addTransaction (inl mensagem) p)
        /\ Spec.failsCleanly collection err p mensagem
             (TransactionsContext.updateTransaction (inl mensagem) p)
        /\ forall transactionId : Z,
             Spec.failsCleanly collection err p mensagem
               (TransactionsContext.deleteTransaction transactionId
                  (inl mensagem) p)).
Proof.
  split; intros; repeat split.
Qed.

Lemma map_replace_absent {A : Type} (key : A -> Z) (payload : A)
    (l : list A) :
  (forall x, In x l -> key x <> key payload) ->
  map (fun x => if key x =? key payload then payload else x) l = l.
Proof.
  induction l as [|x l IH]; intro H; simpl; [reflexivity|].
  destruct (Z.eqb_spec (key x) (key payload)) as [E|_].
  - exfalso. apply (H x); [left; reflexivity | exact E].
  - rewrite IH; [reflexivity|]. intros y Hy. apply H. right. exact Hy.
Qed.

(** C10: an update that succeeds with a record whose [id] is the [id] of
    no stored element leaves the collection as it is, in the reducer and
    in the whole operation, for budgets and for transactions alike; the
    record is still returned to the caller. *)
Theorem update_with_unknown_id_changes_nothing :
  (forall (st : State) (payload : Budget),
      (forall b, In b (budgets st) -> id b <> id payload) ->
      budgets (budgetsReducer st (UPDATE_BUDGET payload)) = budgets st
      /\ budgets (fst (updateBudget (inr payload) st)) = budgets st
      /\ snd (updateBudget (inr payload) st) = inr payload)
  /\ (forall (p : TransactionsContext.Provider)
        (payload : TransactionsContext.Transaction),
        let st := TransactionsContext.state p in
        (forall t, In t (TransactionsContext.transactions st) ->
                   TransactionsContext.id t <> TransactionsContext.id payload) ->
        TransactionsContext.transactions
          (TransactionsContext.transactionsReducer st
             (TransactionsContext.UPDATE_TRANSACTION payload))
        = TransactionsContext.transactions st
        /\ TransactionsContext.transactions
             (TransactionsContext.state
                (fst (TransactionsContext.updateTransaction (inr payload) p)))
           = TransactionsContext.transactions st
        /\ snd (TransactionsContext.updateTransaction (inr payload) p)
           = inr payload).
Proof.
  split.
  - intros st payload H.
    pose proof (map_replace_absent id payload (budgets st) H) as E.
    repeat split; cbn; exact E.
  - intros p payload st H.
    pose proof (map_replace_absent TransactionsContext.id payload
                  (TransactionsContext.transactions st) H) as E.
    repeat split; cbn; exact E.
Qed.

Lemma update_with_unknown_id_witness :
  budgets (fst (updateBudget (inr (Examples.foodBudget 7 500))
                  (Examples.budgetStore [Examples.foodBudget 1 300])))
  = [Examples.foodBudget 1 300]
  /\ TransactionsContext.transactions
       (TransactionsContext.state
          (fst (TransactionsContext.updateTransaction
                  (inr (Examples.expense 9 (Some 0) 10 "completed"))
                  (Examples.provider
                     [Examples.expense 1 (Some 0) 20 "pending"]))))
     = [Examples.expense 1 (Some 0) 20 "pending"].
Proof.
  split.
  - apply (proj1 update_with_unknown_id_changes_nothing
             (Examples.budgetStore [Examples.foodBudget 1 300])
             (Examples.foodBudget 7 500)).
    intros b [<- | []]. simpl. lia.
  - apply (proj2 update_with_unknown_id_changes_nothing
             (Examples.provider [Examples.expense 1 (Some 0) 20 "pending"])
             (Examples.expense 9 (Some 0) 10 "completed")).
    intros t [<- | []]. simpl. lia.
Defined.

(** ** The month window *)

Lemma TimeClip_le (a b : Z) :
  JSDate.le (JSDate.TimeClip a) (JSDate.TimeClip b) = true -> a <= b.
Proof.
  unfold JSDate.TimeClip, JSDate.le.
  destruct (8640000000000000 <? Z.abs a), (8640000000000000 <? Z.abs b);
    try discriminate.
  apply Z.leb_le.
Qed.

Lemma TimeClip_le_valid (a b ta tb : Z) :
  JSDate.TimeClip a = Some ta ->
  JSDate.TimeClip b = Some tb ->
  a <= b ->
  JSDate.le (JSDate.TimeClip a) (JSDate.TimeClip b) = true.
Proof.
  unfold JSDate.TimeClip, JSDate.le.
  destruct (8640000000000000 <? Z.abs a), (8640000000000000 <? Z.abs b);
    try discriminate.
  intros _ _. apply Z.leb_le.
Qed.

Lemma newDate_le_time (y mo d h mi s ms h' mi' s' ms' : Z) :
  JSDate.le (JSDate.newDate y mo d h mi s ms)
            (JSDate.newDate y mo d h' mi' s' ms') = true ->
  JSDate.MakeTime h mi s ms <= JSDate.MakeTime h' mi' s' ms'.
Proof.
  unfold JSDate.newDate. intro H. apply TimeClip_le in H.
  unfold JSDate.MakeDate in H. lia.
Qed.

Lemma DaysInMonth_pos (y m : Z) : 1 <= JSDate.DaysInMonth y m.
Proof.
  unfold JSDate.DaysInMonth, JSDate.InLeapYear.
  destruct (m =? 1);
    [destruct (JSDate.DaysInYear y =? 366)
    |destruct ((m =? 3) || (m =? 5) || (m =? 8) || (m =? 10))]; lia.
Qed.

Lemma MakeDay_succ (y mo d : Z) :
  JSDate.MakeDay y mo (d + 1) = JSDate.MakeDay y mo d + 1.
Proof. unfold JSDate.MakeDay. lia. Qed.

(** The month window is closed at 23:59:59.000 of the last day: a date
    later in that second is outside. *)
Lemma window_ends_on_the_second (y m ms : Z) :
  0 < ms ->
  JSDate.le (JSDate.newDate y m 0 23 59 59 ms)
            (JSDate.newDate y m 0 23 59 59 0) = false.
Proof.
  intro Hms.
  destruct (JSDate.le _ _) eqn:E; [|reflexivity].
  apply newDate_le_time in E. unfold JSDate.MakeTime in E. lia.
Qed.

(** The first instant of the following month is outside the window. *)
Lemma window_excludes_next_month (y m : Z) :
  JSDate.le (JSDate.newDate y m 1 0 0 0 0)
            (JSDate.newDate y m 0 23 59 59 0) = false.
Proof.
  destruct (JSDate.le _ _) eqn:E; [|reflexivity].
  unfold JSDate.newDate in E. apply TimeClip_le in E.
  change 1 with (0 + 1) in E at 1. rewrite MakeDay_succ in E.
  unfold JSDate.MakeDate, JSDate.MakeTime, JSDate.msPerDay in E. lia.
Qed.

(** A date of the last second of the month is before the start of the
    following month's window. *)
Lemma last_second_before_next_window (y m ms : Z) :
  ms <= 999 ->
  JSDate.ge (JSDate.newDate y m 0 23 59 59 ms)
            (JSDate.newDate y (m + 1 - 1) 1 0 0 0 0) = false.
Proof.
  intro Hms. unfold JSDate.ge.
  destruct (JSDate.le _ _) eqn:E; [|reflexivity].
  replace (m + 1 - 1) with m in E by lia.
  unfold JSDate.newDate in E. apply TimeClip_le in E.
  change 1 with (0 + 1) in E at 1. rewrite MakeDay_succ in E.
  unfold JSDate.MakeDate, JSDate.MakeTime, JSDate.msPerDay in E. lia.
Qed.

Lemma getCategorySpent_single (t : TransactionsContext.Transaction)
    (cat : string) (y m : Z) :
  getCategorySpent (Examples.store [t]) cat y m
  = if (Category.id (TransactionsContext.category t) =? cat)%string
       && spentFilter (JSDate.newDate y (m - 1) 1 0 0 0 0)
                      (JSDate.newDate y m 0 23 59 59 0) t
    then (0 + TransactionsContext.amount t)%Q else 0%Q.
Proof.
  unfold getCategorySpent, TransactionsContext.getTransactionsByCategory.
  cbn [Examples.store TransactionsContext.transactions filter].
  destruct (Category.id (TransactionsContext.category t) =? cat)%string;
    cbn [filter andb]; [|reflexivity].
  destruct (spentFilter _ _ t); reflexivity.
Qed.

(** The instant 23:59:59.000 of the last day is counted, whenever the
    month's bounds are valid dates. *)
Lemma last_second_zero_ms_counted (i : Z) (a : Q) (st : string) (y m : Z) :
  1 <= m <= 12 ->
  (exists t0 t1, JSDate.newDate y (m - 1) 1 0 0 0 0 = Some t0
                 /\ JSDate.newDate y m 0 23 59 59 0 = Some t1) ->
  (getCategorySpent
     (Examples.store
        [Examples.expense i (JSDate.newDate y m 0 23 59 59 0) a st])
     "food" y m == a)%Q.
Proof.
  intros Hm (t0 & t1 & H0 & H1).
  rewrite getCategorySpent_single.
  cbn [Examples.expense TransactionsContext.category Examples.food
       Category.id].
  unfold spentFilter, JSDate.ge.
  cbn [Examples.expense TransactionsContext.date TransactionsContext.type].
  assert (Hle : JSDate.le (JSDate.newDate y (m - 1) 1 0 0 0 0)
                          (JSDate.newDate y m 0 23 59 59 0) = true).
  { assert (Hday : JSDate.MakeDay
                     (if (0 <=? y) && (y <=? 99) then 1900 + y else y)
                     (m - 1) 1
                   <= JSDate.MakeDay
                        (if (0 <=? y) && (y <=? 99) then 1900 + y else y)
                        m 0).
    { rewrite MakeDay_day_zero by exact Hm.
      pose proof (DaysInMonth_pos
                    (if (0 <=? y) && (y <=? 99) then 1900 + y else y)
                    (m - 1)).
      unfold JSDate.MakeDay. lia. }
    unfold JSDate.newDate in *.
    apply (TimeClip_le_valid _ _ t0 t1 H0 H1).
    unfold JSDate.MakeDate, JSDate.MakeTime, JSDate.msPerDay. lia. }
  rewrite Hle. rewrite H1. cbn [JSDate.le]. rewrite Z.leb_refl.
  cbn. ring.
Qed.

(** C2: the expense dated 2024-03-31 23:59:59.999, the last millisecond
    of March 2024, lies between the first instants of March and of April,
    and [getCategorySpent] counts it neither in March nor in April. *)
Theorem getCategorySpent_drops_last_millisecond :
  let d := JSDate.newDate 2024 2 31 23 59 59 999 in
  JSDate.le (JSDate.newDate 2024 2 1 0 0 0 0) d = true
  /\ JSDate.le (JSDate.newDate 2024 3 1 0 0 0 0) d = false
  /\ (getCategorySpent Examples.lastMillisecondOfMarch "food" 2024 3 == 0)%Q
  /\ (getCategorySpent Examples.lastMillisecondOfMarch "food" 2024 4 == 0)%Q.
Proof. repeat split. Qed.

(** No month counts an expense dated in the last second of a month after
    its first millisecond. *)
Lemma last_second_counted_nowhere (i : Z) (a : Q) (st : string)
    (y m ms : Z) :
  0 < ms <= 999 ->
  let txs :=
    Examples.store
      [Examples.expense i (JSDate.newDate y m 0 23 59 59 ms) a st] in
  getCategorySpent txs "food" y m = 0%Q
  /\ getCategorySpent txs "food" y (m + 1) = 0%Q.
Proof.
  intros Hms txs. unfold txs. rewrite !getCategorySpent_single.
  unfold spentFilter.
  cbn [Examples.expense TransactionsContext.date TransactionsContext.type].
  rewrite window_ends_on_the_second by lia.
  rewrite last_second_before_next_window by lia.
  rewrite !andb_false_r. cbn [andb]. split; reflexivity.
Qed.

(** The first instant of the next month is not counted. *)
Lemma next_month_not_counted (i : Z) (a : Q) (st : string) (y m : Z) :
  getCategorySpent
    (Examples.store
       [Examples.expense i (JSDate.newDate y m 1 0 0 0 0) a st])
    "food" y m = 0%Q.
Proof.
  rewrite getCategorySpent_single. unfold spentFilter.
  cbn [Examples.expense TransactionsContext.date TransactionsContext.type].
  rewrite window_excludes_next_month.
  rewrite !andb_false_r. reflexivity.
Qed.

End BudgetDerivation.

(* ================================================================= *)
(** ** The specification's scenarios *)

Section Scenarios.

Import BudgetsContext.

(** Two March expenses of 200 and 150 and a February one of 100 against
    a ceiling of 500. *)
Example scenario_on_track :
  getBudgetsWithSpent (Examples.budgetStore [Examples.budget500]) Examples.march
  = [{| budget := Examples.budget500; spent := 350; remaining := 150;
        percentage := JS.Num (35000 # 500); status := "on_track" |}]
  /\ (35000 # 500 == 70)%Q.
Proof. split; reflexivity. Qed.

(** A third March expense of 200 takes the budget over its ceiling. *)
Example scenario_exceeded :
  getBudgetsWithSpent (Examples.budgetStore [Examples.budget500])
    (Examples.store
       (Examples.expense 4 (JSDate.newDate 2024 2 25 9 30 0 0) 200
          "completed"
        :: TransactionsContext.transactions Examples.march))
  = [{| budget := Examples.budget500; spent := 550; remaining := -50;
        percentage := JS.Num 100; status := "exceeded" |}].
Proof. reflexivity. Qed.

(** A ceiling of zero: the quotient is not a rational, and the record
    still has no percentage above 100. *)
Example scenario_zero_ceiling :
  map percentage
      (getBudgetsWithSpent
         (Examples.budgetStore [Examples.foodBudget 1 0])
         Examples.march)
  = [JS.Num 100]
  /\ map percentage
        (getBudgetsWithSpent
           (Examples.budgetStore [Examples.foodBudget 1 0])
           (Examples.store []))
     = [JS.NaN].
Proof. split; reflexivity. Qed.

End Scenarios.

(* ================================================================= *)
(** * Further properties of the stores *)

(** ** Collections keyed by [id] *)

Section Keyed.

Context {A : Type}.
Variable key : A -> Z.

Lemma delete_keeps_the_others (i : Z) (l : list A) (x : A) :
  In x (filter (fun y => negb (key y =? i)) l) <-> In x l /\ key x <> i.
Proof.
  rewrite filter_In, negb_true_iff, Z.eqb_neq. reflexivity.
Qed.

Lemma delete_absent (i : Z) (l : list A) :
  (forall x, In x l -> key x <> i) ->
  filter (fun y => negb (key y =? i)) l = l.
Proof.
  induction l as [|x l IH]; intro H; simpl; [reflexivity|].
  destruct (Z.eqb_spec (key x) i) as [E|_]; simpl.
  - exfalso. apply (H x); [left; reflexivity | exact E].
  - f_equal. apply IH. intros y Hy. apply H. right. exact Hy.
Qed.

Lemma delete_twice (i : Z) (l : list A) :
  filter (fun y => negb (key y =? i)) (filter (fun y => negb (key y =? i)) l)
  = filter (fun y => negb (key y =? i)) l.
Proof.
  apply delete_absent. intros x Hx. apply delete_keeps_the_others in Hx.
  tauto.
Qed.

Lemma replace_keeps_keys (p : A) (l : list A) :
  map key (map (fun x => if key x =? key p then p else x) l) = map key l.
Proof.
  induction l as [|x l IH]; simpl; [reflexivity|].
  rewrite IH. destruct (Z.eqb_spec (key x) (key p)) as [E|_]; congruence.
Qed.

Lemma replace_elements (p : A) (l : list A) (x : A) :
  In x (map (fun y => if key y =? key p then p else y) l) <->
  (x = p /\ exists y, In y l /\ key y = key p)
  \/ (In x l /\ key x <> key p).
Proof.
  rewrite in_map_iff. split.
  - intros (y & E & Hy).
    destruct (Z.eqb_spec (key y) (key p)) as [K|K]; subst x.
    + left. split; [reflexivity|]. exists y. tauto.
    + right. tauto.
  - intros [(-> & y & Hy & K) | (Hx & K)].
    + exists y. split; [|exact Hy]. apply Z.eqb_eq in K. now rewrite K.
    + exists x. split; [|exact Hx]. apply Z.eqb_neq in K. now rewrite K.
Qed.

Ltac split_eqb :=
  repeat match goal with
         | |- context [?a =? ?b] => destruct (Z.eqb_spec a b)
         end;
  try reflexivity; try congruence.

Lemma find_replace (p : A) (l : list A) (i : Z) :
  find (fun y => key y =? i)
       (map (fun y => if key y =? key p then p else y) l)
  = if i =? key p
    then match find (fun y => key y =? i) l with
         | Some _ => Some p
         | None => None
         end
    else find (fun y => key y =? i) l.
Proof.
  induction l as [|x l IH]; simpl.
  - destruct (i =? key p); reflexivity.
  - destruct (Z.eqb_spec (key x) (key p)) as [E|E]; simpl;
      rewrite IH; split_eqb.
Qed.

Lemma find_delete (j i : Z) (l : list A) :
  find (fun y => key y =? i) (filter (fun y => negb (key y =? j)) l)
  = if i =? j then None else find (fun y => key y =? i) l.
Proof.
  induction l as [|x l IH]; simpl.
  - destruct (i =? j); reflexivity.
  - destruct (Z.eqb_spec (key x) j) as [E|E]; simpl;
      rewrite IH; split_eqb.
Qed.

Lemma find_append (x : A) (l : list A) (i : Z) :
  find (fun y => key y =? i) (l ++ [x])
  = match find (fun y => key y =? i) l with
    | Some old => Some old
    | None => if key x =? i then Some x else None
    end.
Proof.
  induction l as [|y l IH]; simpl; [reflexivity|].
  destruct (key y =? i); [reflexivity|exact IH].
Qed.

End Keyed.

(* ================================================================= *)
(** ** Mutations and loads *)

(** X1: After a successful deleteBudget, deleteTransaction or deleteAccount of
    id i, the collection holds exactly the former elements whose id is not
    i (all elements with that id go, the others stay), and deleting the
    same id again changes nothing. *)
Theorem successful_delete_removes_exactly_that_id (i : Z) :
  (forall st : BudgetsContext.State,
     let after := fst (BudgetsContext.deleteBudget i (inr tt) st) in
     (forall b, In b (BudgetsContext.budgets after)
                <-> In b (BudgetsContext.budgets st)
                    /\ BudgetsContext.id b <> i)
     /\ BudgetsContext.budgets
          (fst (BudgetsContext.deleteBudget i (inr tt) after))
        = BudgetsContext.budgets after)
  /\ (forall p : TransactionsContext.Provider,
        let after :=
          fst (TransactionsContext.deleteTransaction i (inr tt) p) in
        let collection q :=
          TransactionsContext.transactions (TransactionsContext.state q) in
        (forall t, In t (collection after)
                   <-> In t (collection p) /\ TransactionsContext.id t <> i)
        /\ collection
             (fst (TransactionsContext.deleteTransaction i (inr tt) after))
           = collection after)
  /\ (forall st : AccountsContext.State,
        let after := fst (AccountsContext.deleteAccount i (inr tt) st) in
        (forall a, In a (AccountsContext.accounts after)
                   <-> In a (AccountsContext.accounts st)
                       /\ AccountsContext.id a <> i)
        /\ AccountsContext.accounts
             (fst (AccountsContext.deleteAccount i (inr tt) after))
           = AccountsContext.accounts after).
Proof.
  split; [|split]; intros; cbn; split;
    try (intro; apply delete_keeps_the_others);
    apply delete_twice.
Qed.

(** X2: A successful updateBudget, updateTransaction or updateAccount keeps
    the sequence of ids of the collection (so its length and order); the
    new collection consists of the payload, present exactly when some
    former element had its id, and of the former elements with another id. *)
Theorem successful_update_keeps_ids_and_replaces_matches :
  (forall (st : BudgetsContext.State) (payload : BudgetsContext.Budget),
     let after := fst (BudgetsContext.updateBudget (inr payload) st) in
     map BudgetsContext.id (BudgetsContext.budgets after)
     = map BudgetsContext.id (BudgetsContext.budgets st)
     /\ forall b, In b (BudgetsContext.budgets after)
                  <-> (b = payload
                       /\ exists old, In old (BudgetsContext.budgets st)
                                      /\ BudgetsContext.id old
                                         = BudgetsContext.id payload)
                      \/ (In b (BudgetsContext.budgets st)
                          /\ BudgetsContext.id b
                             <> BudgetsContext.id payload))
  /\ (forall (p : TransactionsContext.Provider)
        (payload : TransactionsContext.Transaction),
        let collection q :=
          TransactionsContext.transactions (TransactionsContext.state q) in
        let after :=
          fst (TransactionsContext.updateTransaction (inr payload) p) in
        map TransactionsContext.id (collection after)
        = map TransactionsContext.id (collection p)
        /\ forall t, In t (collection after)
                     <-> (t = payload
                          /\ exists old, In old (collection p)
                                         /\ TransactionsContext.id old
                                            = TransactionsContext.id payload)
                         \/ (In t (collection p)
                             /\ TransactionsContext.id t
                                <> TransactionsContext.id payload))
  /\ (forall (st : AccountsContext.State) (payload : AccountsContext.Account),
        let after := fst (AccountsContext.updateAccount (inr payload) st) in
        map AccountsContext.id (AccountsContext.accounts after)
        = map AccountsContext.id (AccountsContext.accounts st)
        /\ forall a, In a (AccountsContext.accounts after)
                     <-> (a = payload
                          /\ exists old, In old (AccountsContext.accounts st)
                                         /\ AccountsContext.id old
                                            = AccountsContext.id payload)
                         \/ (In a (AccountsContext.accounts st)
                             /\ AccountsContext.id a
                                <> AccountsContext.id payload)).
Proof.
  split; [|split]; intros; cbn; split;
    try apply replace_keeps_keys; intro; apply replace_elements.
Qed.

(** X3: getAccountById after a successful mutation: after addAccount(a) an id
    already in the store still answers the old account (the new one is
    appended and no duplicate check is made), otherwise a's id answers a;
    after updateAccount(a) the id of a answers a if it was stored and
    undefined if not, other ids are unaffected; after deleteAccount(j) the
    id j answers undefined and other ids are unaffected. *)
Theorem getAccountById_after_mutation (st : AccountsContext.State) (i : Z) :
  (forall a : AccountsContext.Account,
     AccountsContext.getAccountById
       (fst (AccountsContext.addAccount (inr a) st)) i
     = match AccountsContext.getAccountById st i with
       | Some old => Some old
       | None => if AccountsContext.id a =? i then Some a else None
       end)
  /\ (forall a : AccountsContext.Account,
        AccountsContext.getAccountById
          (fst (AccountsContext.updateAccount (inr a) st)) i
        = if i =? AccountsContext.id a
          then match AccountsContext.getAccountById st i with
               | Some _ => Some a
               | None => None
               end
          else AccountsContext.getAccountById st i)
  /\ (forall j : Z,
        AccountsContext.getAccountById
          (fst (AccountsContext.deleteAccount j (inr tt) st)) i
        = if i =? j then None else AccountsContext.getAccountById st i).
Proof.
  split; [|split]; intros; unfold AccountsContext.getAccountById; cbn.
  - apply find_append.
  - apply find_replace.
  - apply find_delete.
Qed.

(** X4: loadBudgets, loadTransactions and loadAccounts never throw. Without a
    user id they dispatch nothing and leave the store as it is; on success
    they replace the whole collection by the payload and clear the error;
    on failure they keep the collection and record the message as error
    (the failure is not re-thrown, unlike the mutations). isLoading ends
    false in both cases. *)
Theorem load_replaces_or_keeps_and_never_throws :
  (forall (st : BudgetsContext.State) (u : option AuthContext.User)
      (response : Async.ApiResult (list BudgetsContext.Budget)),
      let r := BudgetsContext.loadBudgets u response st in
      snd r = inr tt
      /\ fst r
         = if AuthContext.hasId u then
             match response with
             | inr loaded =>
                 BudgetsContext.mkState loaded false None
             | inl mensagem =>
                 BudgetsContext.mkState (BudgetsContext.budgets st) false
                   (Some mensagem)
             end
           else st)
  /\ (forall (p : TransactionsContext.Provider) (u : option AuthContext.User)
        (response : Async.ApiResult (list TransactionsContext.Transaction)),
        let r := TransactionsContext.loadTransactions u response p in
        snd r = inr tt
        /\ fst r
           = if AuthContext.hasId u then
               TransactionsContext.mkProvider
                 match response with
                 | inr loaded =>
                     TransactionsContext.mkState loaded false None
                 | inl mensagem =>
                     TransactionsContext.mkState
                       (TransactionsContext.transactions
                          (TransactionsContext.state p))
                       false (Some mensagem)
                 end
                 (TransactionsContext.accountReloads p)
             else p)
  /\ (forall (st : AccountsContext.State) (u : option AuthContext.User)
        (response : Async.ApiResult (list AccountsContext.Account)),
        let r := AccountsContext.loadAccounts u response st in
        snd r = inr tt
        /\ fst r
           = if AuthContext.hasId u then
               match response with
               | inr loaded => AccountsContext.mkState loaded false None
               | inl mensagem =>
                   AccountsContext.mkState (AccountsContext.accounts st)
                     false (Some mensagem)
               end
             else st).
Proof.
  split; [|split]; intros ? u response;
    unfold BudgetsContext.loadBudgets, TransactionsContext.loadTransactions,
      AccountsContext.loadAccounts;
    destruct (AuthContext.hasId u), response; split; reflexivity.
Qed.

(* ================================================================= *)
(** ** Totals *)

(** ** More on sums *)

Lemma sum_over_le {A : Type} (p q : A -> bool) (f : A -> Q) (l : list A) :
  (forall x, In x l -> (0 <= f x)%Q) ->
  (forall x, In x l -> p x = true -> q x = true) ->
  (0 <= Spec.sum_over p f l <= Spec.sum_over q f l)%Q.
Proof.
  induction l as [|x l IH]; intros Hf Hpq; simpl.
  - split; apply Qle_refl.
  - assert (IH' : (0 <= Spec.sum_over p f l <= Spec.sum_over q f l)%Q).
    { apply IH; intros; [apply Hf | apply Hpq]; simpl; auto. }
    pose proof (Hf x (or_introl eq_refl)) as Hx.
    pose proof (Hpq x (or_introl eq_refl)) as Hi.
    destruct (p x); [rewrite (Hi eq_refl)|destruct (q x)]; lra.
Qed.

Section PeriodTotals.

Import TransactionsContext.

Lemma period_filter_none (st : State) (s e : JSDate.Date) :
  (forall t, In t (transactions st) ->
             JSDate.ge (date t) s && JSDate.le (date t) e = false) ->
  getTransactionsByPeriod st s e = [].
Proof.
  intro H. unfold getTransactionsByPeriod.
  induction (transactions st) as [|t l IH]; [reflexivity|].
  simpl. rewrite (H t (or_introl eq_refl)).
  apply IH. intros x Hx. apply H. right. exact Hx.
Qed.

(** X6: If a bound is an Invalid Date, or the end lies before the start,
    getTransactionsByPeriod returns the empty list and getTotalIncome and
    getTotalExpenses return 0. *)
Theorem totals_vanish_on_empty_period (st : State) (s e : JSDate.Date) :
  s = None \/ e = None
  \/ (exists a b : Z, s = Some a /\ e = Some b /\ b < a) ->
  getTransactionsByPeriod st s e = []
  /\ getTotalIncome st (Some s) (Some e) = 0%Q
  /\ getTotalExpenses st (Some s) (Some e) = 0%Q.
Proof.
  intro H.
  assert (E : getTransactionsByPeriod st s e = []).
  { apply period_filter_none. intros t _. unfold JSDate.ge, JSDate.le.
    destruct H as [-> | [-> | (a & b & -> & -> & Hab)]];
      destruct (date t) as [d|]; try reflexivity;
      try apply andb_false_r.
    cbn. destruct (Z.leb_spec a d), (Z.leb_spec d b);
      try reflexivity; lia. }
  unfold getTotalIncome, getTotalExpenses, periodOrAll. rewrite E.
  repeat split.
Qed.

Lemma totals_vanish_on_empty_period_witness :
  getTotalIncome Examples.march
    (Some (JSDate.newDate 2024 2 31 0 0 0 0))
    (Some (JSDate.newDate 2024 2 1 0 0 0 0)) = 0%Q.
Proof.
  apply (totals_vanish_on_empty_period Examples.march).
  right; right. eexists; eexists.
  split; [reflexivity|]. split; [reflexivity|]. reflexivity.
Defined.

Lemma total_of_type (st : State) (ty : string)
    (bounds : option (JSDate.Date * JSDate.Date)) :
  (JS.reduce_sum amount
     (filter (fun t => (type t =? ty)%string
                       && (status t =? COMPLETED)%string)
             match bounds with
             | Some (s, e) => getTransactionsByPeriod st s e
             | None => transactions st
             end)
   == Spec.sum_over
        (fun t => match bounds with
                  | Some (s, e) => Spec.completedInPeriod ty s e t
                  | None => Spec.completedOfType ty t
                  end)
        amount (transactions st))%Q.
Proof.
  destruct bounds as [[s e]|].
  - unfold getTransactionsByPeriod.
    rewrite filter_filter, reduce_sum_filter.
    erewrite sum_over_ext; [reflexivity|].
    intros t _. unfold Spec.completedInPeriod, JSDate.ge, COMPLETED.
    cbv zeta.
    destruct (type t =? ty)%string, (status t =? "completed")%string,
      (JSDate.le s (date t)), (JSDate.le (date t) e); reflexivity.
  - rewrite reduce_sum_filter. reflexivity.
Qed.

(** X8: When no stored amount is negative, getTotalIncome and getTotalExpenses
    are non-negative for any arguments and never exceed the totals over
    the full set (the call without bounds). *)
Theorem totals_bounded_by_full_totals (st : State)
    (s e : option JSDate.Date) :
  (forall t, In t (transactions st) -> (0 <= amount t)%Q) ->
  (0 <= getTotalIncome st s e <= getTotalIncome st None None)%Q
  /\ (0 <= getTotalExpenses st s e <= getTotalExpenses st None None)%Q.
Proof.
  intro Hpos.
  assert (H : forall ty : string,
    (0 <= JS.reduce_sum amount
            (filter (fun t => (type t =? ty)%string
                              && (status t =? COMPLETED)%string)
                    (periodOrAll st s e))
     <= JS.reduce_sum amount
          (filter (fun t => (type t =? ty)%string
                            && (status t =? COMPLETED)%string)
                  (transactions st)))%Q).
  { intro ty. rewrite (total_of_type st ty None).
    destruct s as [s|], e as [e|]; cbn [periodOrAll];
      [rewrite (total_of_type st ty (Some (s, e)))
      |rewrite (total_of_type st ty None)..];
      apply sum_over_le; auto.
    intros t _. unfold Spec.completedInPeriod, Spec.completedOfType.
    intro H. apply andb_true_iff in H as [H _].
    apply andb_true_iff in H as [H _]. exact H. }
  split; apply H.
Qed.

Lemma totals_bounded_by_full_totals_witness :
  (0 <= getTotalExpenses Examples.march (Some (Some 1709251200000%Z))
          (Some (Some 1711929599000%Z))
   <= getTotalExpenses Examples.march None None)%Q.
Proof.
  apply (totals_bounded_by_full_totals Examples.march
           (Some (Some 1709251200000%Z)) (Some (Some 1711929599000%Z))).
  intros t [<- | [<- | [<- | []]]]; discriminate.
Defined.

End PeriodTotals.

(* ================================================================= *)
(** ** Budget records *)

Section BudgetTotals.

Import BudgetsContext.

Lemma ge_min_100 (p : JS.JSNum) (k : Q) :
  (k <= 100)%Q ->
  JS.ge (JS.min p (JS.Num 100)) (JS.Num k) = JS.ge p (JS.Num k).
Proof.
  intro Hk. destruct p as [a| | |]; cbn [JS.min JS.ge]; try reflexivity.
  - destruct (Qle_bool a 100) eqn:E; cbn [JS.ge]; [reflexivity|].
    assert (Ha : ~ (a <= 100)%Q) by (rewrite <- Qle_bool_iff; congruence).
    transitivity true; [|symmetry]; apply Qle_bool_iff; lra.
  - apply Qle_bool_iff. exact Hk.
Qed.

(** X10: In every record of getBudgetsWithSpent the status agrees with the
    capped percentage shown: exceeded when percentage >= 100, warning when
    80 <= percentage < 100, on_track otherwise (also when the percentage
    is NaN), whatever the budget's amount. *)
Theorem displayed_percentage_determines_status
    (st : State) (txs : TransactionsContext.State) :
  Forall
    (fun r =>
       status r
       = if JS.ge (percentage r) (JS.Num 100) then "exceeded"%string
         else if JS.ge (percentage r) (JS.Num 80) then "warning"%string
         else "on_track"%string)
    (getBudgetsWithSpent st txs).
Proof.
  unfold getBudgetsWithSpent. apply Forall_map, Forall_forall.
  intros b _. cbn [status percentage]. unfold getBudgetStatus.
  rewrite !ge_min_100 by (unfold Qle; simpl; lia). reflexivity.
Qed.

(** X11: For a budget whose amount is zero or negative and a non-negative
    spending, getBudgetStatus is exceeded exactly when the amount is 0 and
    something was spent (the quotient is Infinity), and on_track in every
    other case; it is never warning. *)
Theorem getBudgetStatus_without_positive_ceiling
    (txs : TransactionsContext.State) (b : Budget) :
  (amount b <= 0)%Q ->
  (0 <= getCategorySpent txs (categoryId b) (year b) (month b))%Q ->
  getBudgetStatus txs b
  = if Qeq_bool (amount b) 0
       && JS.Qlt_bool 0
            (getCategorySpent txs (categoryId b) (year b) (month b))
    then "exceeded"%string else "on_track"%string.
Proof.
  intros Ha Hs. unfold getBudgetStatus, JS.div.
  set (spent := getCategorySpent txs (categoryId b) (year b) (month b)) in *.
  destruct (Qeq_bool (amount b) 0) eqn:E0.
  - destruct (JS.Qlt_bool 0 spent) eqn:Epos; [reflexivity|].
    destruct (JS.Qlt_bool spent 0) eqn:Eneg; reflexivity.
  - cbn [andb JS.mul JS.ge].
    assert (Hneg : (amount b < 0)%Q).
    { apply Qle_lt_or_eq in Ha as [Ha|Ha]; [exact Ha|].
      apply Qeq_bool_iff in Ha. congruence. }
    assert (Hq : (spent / amount b * 100 <= 0)%Q).
    { assert (Hinv : (/ amount b < 0)%Q).
      { apply Qnot_le_lt. intro Hle.
        assert (H1 : (amount b * / amount b == 1)%Q)
          by (apply Qmult_inv_r; lra).
        assert (H2 : (amount b * / amount b <= 0)%Q).
        { setoid_replace (amount b * / amount b)%Q
            with (- ((- amount b) * / amount b))%Q by ring.
          assert (0 <= - amount b * / amount b)%Q
            by (apply Qmult_le_0_compat; lra).
          lra. }
        lra. }
      unfold Qdiv.
      setoid_replace (spent * / amount b * 100)%Q
        with (- (spent * ((- / amount b) * 100)))%Q by ring.
      assert (0 <= spent * (- / amount b * 100))%Q.
      { apply Qmult_le_0_compat; [exact Hs|].
        apply Qmult_le_0_compat; lra. }
      lra. }
    destruct (Qle_bool 100 (spent / amount b * 100)) eqn:E100.
    { apply Qle_bool_iff in E100. lra. }
    destruct (Qle_bool 80 (spent / amount b * 100)) eqn:E80.
    { apply Qle_bool_iff in E80. lra. }
    reflexivity.
Qed.

Lemma getBudgetStatus_without_positive_ceiling_witness :
  getBudgetStatus Examples.march (Examples.foodBudget 1 0)
  = "exceeded"%string.
Proof.
  apply (getBudgetStatus_without_positive_ceiling Examples.march
           (Examples.foodBudget 1 0)); discriminate.
Defined.

Lemma category_filter_none (txs : TransactionsContext.State) (cat : string) :
  (forall t, In t (TransactionsContext.transactions txs) ->
             Category.id (TransactionsContext.category t) <> cat) ->
  TransactionsContext.getTransactionsByCategory txs cat = [].
Proof.
  intro H. unfold TransactionsContext.getTransactionsByCategory.
  induction (TransactionsContext.transactions txs) as [|t l IH];
    [reflexivity|].
  simpl. destruct (String.eqb_spec
                     (Category.id (TransactionsContext.category t)) cat)
    as [E|_].
  - exfalso. exact (H t (or_introl eq_refl) E).
  - apply IH. intros x Hx. apply H. right. exact Hx.
Qed.

(** X12: When no stored transaction has the budget's category,
    getCategorySpent is 0 and getBudgetStatus is on_track, whatever the
    budget's amount (for an amount of 0 the percentage is NaN and every
    comparison fails). *)
Theorem budget_without_transactions_is_on_track
    (txs : TransactionsContext.State) (b : Budget) :
  (forall t, In t (TransactionsContext.transactions txs) ->
             Category.id (TransactionsContext.category t) <> categoryId b) ->
  getCategorySpent txs (categoryId b) (year b) (month b) = 0%Q
  /\ getBudgetStatus txs b = "on_track"%string.
Proof.
  intro H.
  assert (E : getCategorySpent txs (categoryId b) (year b) (month b) = 0%Q).
  { unfold getCategorySpent. rewrite (category_filter_none _ _ H).
    reflexivity. }
  split; [exact E|].
  unfold getBudgetStatus. rewrite E. unfold JS.div.
  destruct (Qeq_bool (amount b) 0) eqn:E0; [reflexivity|].
  cbn [JS.mul JS.ge].
  assert (Hz : (0 / amount b * 100 == 0)%Q).
  { unfold Qdiv. ring. }
  destruct (Qle_bool 100 (0 / amount b * 100)) eqn:E100.
  { apply Qle_bool_iff in E100. rewrite Hz in E100. lra. }
  destruct (Qle_bool 80 (0 / amount b * 100)) eqn:E80.
  { apply Qle_bool_iff in E80. rewrite Hz in E80. lra. }
  reflexivity.
Qed.

Lemma budget_without_transactions_is_on_track_witness :
  getCategorySpent (Examples.store []) "food" 2024 3 = 0%Q
  /\ getBudgetStatus (Examples.store []) (Examples.foodBudget 1 0)
     = "on_track"%string.
Proof.
  apply (budget_without_transactions_is_on_track
           (Examples.store []) (Examples.foodBudget 1 0)).
  intros t [].
Defined.

End BudgetTotals.

(* ================================================================= *)
(** ** Spending over time *)

Section SpendingOverTime.

Import BudgetsContext.

Lemma statusRank_cases (pct : Q) :
  Derived.statusRank
    (if JS.ge (JS.Num pct) (JS.Num 100) then EXCEEDED
     else if JS.ge (JS.Num pct) (JS.Num 80) then WARNING
     else ON_TRACK)
  = if Qle_bool 100 pct then 2 else if Qle_bool 80 pct then 1 else 0.
Proof.
  cbn [JS.ge].
  destruct (Qle_bool 100 pct), (Qle_bool 80 pct); reflexivity.
Qed.

Lemma status_monotone (txs1 txs2 : TransactionsContext.State) (b : Budget) :
  (0 < amount b)%Q ->
  (getCategorySpent txs1 (categoryId b) (year b) (month b)
   <= getCategorySpent txs2 (categoryId b) (year b) (month b))%Q ->
  Derived.statusRank (getBudgetStatus txs1 b)
  <= Derived.statusRank (getBudgetStatus txs2 b).
Proof.
  intros Ha Hle. unfold getBudgetStatus.
  set (s1 := getCategorySpent txs1 _ _ _) in *.
  set (s2 := getCategorySpent txs2 _ _ _) in *.
  rewrite !(div_positive _ _ Ha). cbn [JS.mul].
  rewrite !statusRank_cases.
  pose proof (percentage_ge s1 (amount b) 100 Ha) as A1.
  pose proof (percentage_ge s1 (amount b) 80 Ha) as B1.
  pose proof (percentage_ge s2 (amount b) 100 Ha) as A2.
  pose proof (percentage_ge s2 (amount b) 80 Ha) as B2.
  destruct (Qle_bool 100 (s1 / amount b * 100)) eqn:E1;
    destruct (Qle_bool 80 (s1 / amount b * 100)) eqn:F1;
    destruct (Qle_bool 100 (s2 / amount b * 100)) eqn:E2;
    destruct (Qle_bool 80 (s2 / amount b * 100)) eqn:F2;
    try lia; exfalso;
    repeat match goal with
           | H : Qle_bool _ _ = true |- _ => apply Qle_bool_iff in H
           | H : Qle_bool ?x ?y = false |- _ =>
               assert (~ (x <= y)%Q)
                 by (rewrite <- Qle_bool_iff; congruence);
               clear H
           end;
    rewrite ?A1, ?B1, ?A2, ?B2 in *; lra.
Qed.

(** X14: For a budget with a positive amount, adding a transaction with a non-
    negative amount never moves the budget's status back: the order
    on_track < warning < exceeded is kept or raised. *)
Theorem added_spending_never_improves_status
    (p : TransactionsContext.Provider)
    (t : TransactionsContext.Transaction) (b : Budget) :
  (0 < amount b)%Q ->
  (0 <= TransactionsContext.amount t)%Q ->
  Derived.statusRank (getBudgetStatus (TransactionsContext.state p) b)
  <= Derived.statusRank
       (getBudgetStatus
          (TransactionsContext.state
             (fst (TransactionsContext.addTransaction (inr t) p))) b).
Proof.
  intros Ha Ht. apply status_monotone; [exact Ha|].
  assert (E : TransactionsContext.transactions
                (TransactionsContext.state
                   (fst (TransactionsContext.addTransaction (inr t) p)))
              = t :: TransactionsContext.transactions
                       (TransactionsContext.state p)) by reflexivity.
  unfold getCategorySpent, TransactionsContext.getTransactionsByCategory.
  rewrite E. cbn [filter].
  destruct (Category.id (TransactionsContext.category t) =? categoryId b)%string;
    cbn [filter]; [|apply Qle_refl].
  destruct (spentFilter _ _ t); [|apply Qle_refl].
  rewrite reduce_sum_cons. lra.
Qed.

Lemma added_spending_never_improves_status_witness :
  Derived.statusRank
    (getBudgetStatus
       (TransactionsContext.state
          (Examples.provider (TransactionsContext.transactions Examples.march)))
       Examples.budget500)
  <= Derived.statusRank
       (getBudgetStatus
          (TransactionsContext.state
             (fst (TransactionsContext.addTransaction
                     (inr (Examples.expense 4
                             (JSDate.newDate 2024 2 25 9 30 0 0) 200
                             "completed"))
                     (Examples.provider
                        (TransactionsContext.transactions Examples.march)))))
          Examples.budget500).
Proof.
  apply (added_spending_never_improves_status
           (Examples.provider (TransactionsContext.transactions Examples.march))
           (Examples.expense 4 (JSDate.newDate 2024 2 25 9 30 0 0) 200
              "completed")
           Examples.budget500); [reflexivity | discriminate].
Defined.

Lemma le_trans_valid (a b c : JSDate.Date) :
  JSDate.le a b = true -> JSDate.le b c = true -> JSDate.le a c = true.
Proof.
  destruct a, b, c; cbn; try discriminate.
  rewrite !Z.leb_le. lia.
Qed.

End SpendingOverTime.

(* ================================================================= *)
(** ** Sessions *)

(** X16: addTransaction, updateTransaction and deleteTransaction call
    loadAccounts exactly once when the API call succeeds and not at all
    when it fails. *)
Theorem transaction_mutations_reload_accounts_on_success_only
    (p : TransactionsContext.Provider) :
  (forall t, TransactionsContext.accountReloads
               (fst (TransactionsContext.addTransaction (inr t) p))
             = S (TransactionsContext.accountReloads p))
  /\ (forall t, TransactionsContext.accountReloads
                  (fst (TransactionsContext.updateTransaction (inr t) p))
                = S (TransactionsContext.accountReloads p))
  /\ (forall i, TransactionsContext.accountReloads
                  (fst (TransactionsContext.deleteTransaction i (inr tt) p))
                = S (TransactionsContext.accountReloads p))
  /\ (forall mensagem i,
        TransactionsContext.accountReloads
          (fst (TransactionsContext.addTransaction (inl mensagem) p))
        = TransactionsContext.accountReloads p
        /\ TransactionsContext.accountReloads
             (fst (TransactionsContext.updateTransaction (inl mensagem) p))
           = TransactionsContext.accountReloads p
        /\ TransactionsContext.accountReloads
             (fst (TransactionsContext.deleteTransaction i (inl mensagem) p))
           = TransactionsContext.accountReloads p).
Proof. repeat split. Qed.

Section Sessions.

Import AuthContext.

Variable stringify : User -> string.
Variable parse : string -> option (option User).

Lemma authReducer_keeps_invariant (s : State) (a : Action) :
  isAuthenticated s = match user s with Some _ => true | None => false end ->
  isAuthenticated (authReducer s a)
  = match user (authReducer s a) with Some _ => true | None => false end.
Proof.
  intro H. destruct a as [| | | | | | | | | | |[u|]]; cbn; auto.
Qed.

(** X17: In every state the auth reducer reaches from the initial state,
    whatever the sequence of actions, isAuthenticated is true exactly when
    user is not null (success actions carrying a user object). *)
Theorem isAuthenticated_iff_user (actions : list Action) :
  let s := fold_left authReducer actions initialState in
  isAuthenticated s = match user s with Some _ => true | None => false end.
Proof.
  cbv zeta.
  assert (H : forall s0,
    isAuthenticated s0
    = match user s0 with Some _ => true | None => false end ->
    isAuthenticated (fold_left authReducer actions s0)
    = match user (fold_left authReducer actions s0) with
      | Some _ => true
      | None => false
      end).
  { induction actions as [|a l IH]; intros s0 H0; cbn [fold_left].
    - exact H0.
    - apply IH. apply authReducer_keeps_invariant. exact H0. }
  apply H. reflexivity.
Qed.

(** X18: A failed login, register or resetPassword ends with user null,
    isAuthenticated false, isLoading false and the message as error, re-
    throws the message, and does not touch localStorage; so loadStoredUser
    afterwards restores the same user as it would have before the call. *)
Theorem failed_auth_call_logs_out_but_keeps_storage
    (p : Provider) (mensagem : string) :
  let loggedOut :=
    {| state := {| user := None; isAuthenticated := false;
                   isLoading := false; error := Some mensagem |};
       localStorage := localStorage p |} in
  login stringify (inl mensagem) p = (loggedOut, inl mensagem)
  /\ register stringify (inl mensagem) p = (loggedOut, inl mensagem)
  /\ resetPassword (inl mensagem) p = (loggedOut, inl mensagem)
  /\ user (state (fst (loadStoredUser parse loggedOut)))
     = user (state (fst (loadStoredUser parse p))).
Proof.
  repeat split. unfold loadStoredUser. cbn [localStorage].
  destruct (truthy _ && truthy _); [|reflexivity].
  destruct (getItem (localStorage p) "financas_user") as [text|];
    [|reflexivity].
  destruct (parse text); reflexivity.
Qed.

(** X19: After a successful login with a user whose JSON text parses back to
    it and is not empty, and a non-empty token, the state is authenticated
    with that user, the token is stored, and loadStoredUser run on a fresh
    state over the resulting localStorage restores the same authenticated
    state. *)
Theorem login_survives_reload (p : Provider) (u : User) (token : string) :
  parse (stringify u) = Some (Some u) ->
  stringify u <> ""%string ->
  token <> ""%string ->
  let stored := localStorage (fst (login stringify (inr (u, token)) p)) in
  let reloaded :=
    fst (loadStoredUser parse
           {| state := initialState; localStorage := stored |}) in
  state (fst (login stringify (inr (u, token)) p))
  = {| user := Some u; isAuthenticated := true; isLoading := false;
       error := None |}
  /\ getItem stored "financas_token" = Some token
  /\ state reloaded
     = {| user := Some u; isAuthenticated := true; isLoading := false;
          error := None |}.
Proof.
  intros Hparse Huser Htoken stored reloaded.
  split; [reflexivity|]. split; [reflexivity|].
  unfold reloaded, loadStoredUser, stored. cbn.
  apply String.eqb_neq in Huser, Htoken. rewrite Huser, Htoken. cbn.
  rewrite Hparse. reflexivity.
Qed.

(** X20: A successful login whose token is the empty string authenticates the
    state, but loadStoredUser over the resulting localStorage finds the
    stored token falsy and leaves the fresh state unauthenticated, with no
    user. *)
Theorem session_without_token_is_dropped_on_reload
    (p : Provider) (u : User) :
  let stored :=
    localStorage (fst (login stringify (inr (u, ""%string)) p)) in
  state (fst (login stringify (inr (u, ""%string)) p))
  = {| user := Some u; isAuthenticated := true; isLoading := false;
       error := None |}
  /\ state (fst (loadStoredUser parse
                   {| state := initialState; localStorage := stored |}))
     = initialState.
Proof.
  split; [reflexivity|]. unfold loadStoredUser. cbn.
  rewrite andb_false_r. reflexivity.
Qed.

(** X21: logout ends with user null, isAuthenticated false and no error,
    removes the keys financas_user and financas_token and leaves every
    other key of localStorage as it was; loadStoredUser afterwards yields
    no user. *)
Theorem logout_forgets_the_session (p : Provider) :
  let out := fst (logout p) in
  state out
  = {| user := None; isAuthenticated := false; isLoading := false;
       error := None |}
  /\ getItem (localStorage out) "financas_user" = None
  /\ getItem (localStorage out) "financas_token" = None
  /\ (forall key, key <> "financas_user"%string ->
                  key <> "financas_token"%string ->
                  getItem (localStorage out) key
                  = getItem (localStorage p) key)
  /\ user (state (fst (loadStoredUser parse out))) = None
  /\ isAuthenticated (state (fst (loadStoredUser parse out))) = false.
Proof.
  cbv zeta. repeat split.
  intros key H1 H2. cbn. unfold removeItem, getItem.
  apply String.eqb_neq in H1, H2. rewrite H1, H2. reflexivity.
Qed.

(** X22: loadStoredUser never throws, leaves localStorage and the error field
    as they are and ends with isLoading false; when the user item or the
    token item is missing, or the user item does not parse, the state has
    no user and is not authenticated. *)
Theorem loadStoredUser_treats_bad_cache_as_no_session (p : Provider) :
  let r := loadStoredUser parse p in
  snd r = inr tt
  /\ localStorage (fst r) = localStorage p
  /\ error (state (fst r)) = error (state p)
  /\ isLoading (state (fst r)) = false
  /\ (getItem (localStorage p) "financas_user" = None
      \/ getItem (localStorage p) "financas_token" = None
      \/ (exists text, getItem (localStorage p) "financas_user" = Some text
                       /\ parse text = None) ->
      user (state (fst r)) = None
      /\ isAuthenticated (state (fst r)) = false).
Proof.
  cbv zeta. unfold loadStoredUser.
  destruct (getItem (localStorage p) "financas_user") as [text|] eqn:Eu;
    destruct (getItem (localStorage p) "financas_token") as [tok|] eqn:Et;
    cbn [truthy andb]; rewrite ?andb_false_r.
  - destruct (negb (text =? "")%string && negb (tok =? "")%string);
      [destruct (parse text) as [[u|]|] eqn:Ep|];
      (split; [reflexivity|]); (split; [reflexivity|]);
      (split; [reflexivity|]); (split; [reflexivity|]);
      intros [H | [H | (t' & H & Hp)]]; try discriminate H;
      try (split; reflexivity).
    injection H as <-. congruence.
  - repeat split.
  - repeat split.
  - repeat split.
Qed.

End Sessions.

Section SessionWitnesses.

Import AuthContext.

Lemma login_survives_reload_witness :
  AuthContext.state
    (fst (loadStoredUser SessionExamples.parseEmail
            {| state := initialState;
               localStorage :=
                 localStorage
                   (fst (login SessionExamples.stringifyEmail
                           (inr (SessionExamples.ana, "t0k3n"%string))
                           SessionExamples.freshProvider)) |}))
  = {| user := Some SessionExamples.ana; isAuthenticated := true;
       isLoading := false; error := None |}.
Proof.
  apply (login_survives_reload SessionExamples.stringifyEmail SessionExamples.parseEmail
           SessionExamples.freshProvider SessionExamples.ana "t0k3n"%string);
    [reflexivity | discriminate | discriminate].
Defined.

Lemma logout_forgets_the_session_witness :
  getItem
    (localStorage
       (fst (logout
               (fst (login SessionExamples.stringifyEmail
                       (inr (SessionExamples.ana, "t0k3n"%string))
                       SessionExamples.freshProvider)))))
    "financas_theme"
  = getItem
      (localStorage
         (fst (login SessionExamples.stringifyEmail
                 (inr (SessionExamples.ana, "t0k3n"%string))
                 SessionExamples.freshProvider)))
      "financas_theme".
Proof.
  apply (proj1 (proj2 (proj2 (proj2
           (logout_forgets_the_session SessionExamples.parseEmail
              (fst (login SessionExamples.stringifyEmail
                      (inr (SessionExamples.ana, "t0k3n"%string))
                      SessionExamples.freshProvider)))))));
    discriminate.
Defined.

Lemma loadStoredUser_bad_cache_witness :
  user (state (fst (loadStoredUser SessionExamples.parseEmail
                      SessionExamples.freshProvider))) = None
  /\ isAuthenticated
       (state (fst (loadStoredUser SessionExamples.parseEmail
                      SessionExamples.freshProvider))) = false.
Proof.
  apply (proj2 (proj2 (proj2 (proj2
           (loadStoredUser_treats_bad_cache_as_no_session
              SessionExamples.parseEmail SessionExamples.freshProvider))))).
  left. reflexivity.
Defined.

End SessionWitnesses.

(* ================================================================= *)
(** ** The budget form *)

Section Submission.

Import BudgetForm.

Variables FieldValue Number : Type.
Variable parseFloat : FieldValue -> Number.
Variable parseInt : FieldValue -> Number.

Lemma getSelectedCategory_none (c : string) :
  ~ In c (map Category.id expenseCategories) ->
  getSelectedCategory c = None.
Proof.
  intro H. unfold getSelectedCategory.
  destruct (find _ expenseCategories) as [cat|] eqn:E; [|reflexivity].
  apply find_some in E as [Hin Heq]. apply String.eqb_eq in Heq.
  exfalso. apply H. rewrite <- Heq. apply in_map. exact Hin.
Qed.

(** X23: When the form's categoryId is not the id of one of the nine expense
    categories (nothing selected, or an income category), onSubmit sends
    no request, does not touch the budgets store, does not call onSave and
    returns normally. *)
Theorem onSubmit_without_expense_category_does_nothing
    (budget : option BudgetsContext.Budget) (formData : FormData FieldValue)
    (response : Async.ApiResult BudgetsContext.Budget) (w : World FieldValue Number) :
  ~ In (categoryId _ formData) (map Category.id expenseCategories) ->
  onSubmit FieldValue Number parseFloat parseInt budget formData response w
  = (w, inr tt).
Proof.
  intro H. unfold BudgetForm.onSubmit, Async.try_catch.
  rewrite (getSelectedCategory_none _ H). reflexivity.
Qed.

(** X24: onSubmit never throws. With an expense category selected it sends
    exactly one request, a PUT to the edited budget's id in edit mode and
    a POST otherwise, whose body carries the catalogue entry of the chosen
    category and the parsed amount, year and month; onSave is called
    exactly when the API call succeeds, and on failure the message is the
    store's error and the budgets are unchanged. *)
Theorem onSubmit_reports_through_the_store
    (budget : option BudgetsContext.Budget) (formData : FormData FieldValue)
    (response : Async.ApiResult BudgetsContext.Budget) (w : World FieldValue Number) :
  let r :=
    onSubmit FieldValue Number parseFloat parseInt budget formData response
      w in
  snd r = inr tt
  /\ forall selectedCategory,
       getSelectedCategory (categoryId _ formData) = Some selectedCategory ->
       let body :=
         {| data := formData; category := selectedCategory;
            parsedAmount := parseFloat (amount _ formData);
            parsedYear := parseInt (year _ formData);
            parsedMonth := parseInt (month _ formData) |} in
       Category.id selectedCategory = categoryId _ formData
       /\ requests _ _ (fst r)
          = match budget with
            | Some edited => Put _ _ (BudgetsContext.id edited) body
            | None => Post _ _ body
            end :: requests _ _ w
       /\ match response with
          | inr _ =>
              saved _ _ (fst r) = S (saved _ _ w)
              /\ BudgetsContext.error (store _ _ (fst r)) = None
          | inl mensagem =>
              saved _ _ (fst r) = saved _ _ w
              /\ BudgetsContext.error (store _ _ (fst r)) = Some mensagem
              /\ BudgetsContext.budgets (store _ _ (fst r))
                 = BudgetsContext.budgets (store _ _ w)
          end.
Proof.
  cbv zeta. unfold BudgetForm.onSubmit.
  destruct (getSelectedCategory (categoryId _ formData)) as [cat|] eqn:E.
  - split.
    + destruct budget, response; reflexivity.
    + intros selectedCategory [= <-]. split.
      * unfold getSelectedCategory in E. apply find_some in E as [_ E].
        apply String.eqb_eq. exact E.
      * destruct budget, response; repeat split.
  - split; [reflexivity|]. intros ? [=].
Qed.

End Submission.

Lemma onSubmit_without_expense_category_witness :
  BudgetForm.onSubmit string string (fun v => v) (fun v => v) None
    FormExamples.salaryForm (inr Examples.budget500) FormExamples.emptyWorld
  = (FormExamples.emptyWorld, inr tt).
Proof.
  apply (onSubmit_without_expense_category_does_nothing string string
           (fun v => v) (fun v => v) None FormExamples.salaryForm
           (inr Examples.budget500) FormExamples.emptyWorld).
  cbn. intros [H | [H | [H | [H | [H | [H | [H | [H | [H | []]]]]]]]]];
    discriminate H.
Defined.

Lemma onSubmit_reports_through_the_store_witness :
  BudgetForm.saved _ _
    (fst (BudgetForm.onSubmit string string (fun v => v) (fun v => v) None
            FormExamples.foodForm (inl "sem rede"%string) FormExamples.emptyWorld))
  = 0%nat
  /\ BudgetsContext.error
       (BudgetForm.store _ _
          (fst (BudgetForm.onSubmit string string (fun v => v) (fun v => v)
                  None FormExamples.foodForm (inl "sem rede"%string)
                  FormExamples.emptyWorld)))
     = Some "sem rede"%string.
Proof.
  pose proof (proj2 (onSubmit_reports_through_the_store string string
                       (fun v => v) (fun v => v) None FormExamples.foodForm
                       (inl "sem rede"%string) FormExamples.emptyWorld)
                _ eq_refl) as H.
  cbv zeta in H. destruct H as (_ & _ & H1 & H2 & _).
  split; [exact H1 | exact H2].
Defined.

(* ================================================================= *)
(** ** Accounts, and the edges of the month window *)

(** X25: When the API call of addAccount, updateAccount or deleteAccount
    fails, the message becomes the store's error, it is re-thrown, and the
    accounts are unchanged; a successful updateAccount or deleteAccount
    whose id matches no stored account leaves the accounts unchanged. *)
Theorem account_mutations_fail_cleanly_and_ignore_unknown_ids
    (st : AccountsContext.State) :
  (forall mensagem : string,
      Spec.failsCleanly AccountsContext.accounts AccountsContext.error st
        mensagem (AccountsContext.addAccount (inl mensagem) st)
      /\ Spec.failsCleanly AccountsContext.accounts AccountsContext.error st
           mensagem (AccountsContext.updateAccount (inl mensagem) st)
      /\ forall accountId : Z,
           Spec.failsCleanly AccountsContext.accounts AccountsContext.error
             st mensagem
             (AccountsContext.deleteAccount accountId (inl mensagem) st))
  /\ (forall payload : AccountsContext.Account,
        (forall a, In a (AccountsContext.accounts st) ->
                   AccountsContext.id a <> AccountsContext.id payload) ->
        AccountsContext.accounts
          (fst (AccountsContext.updateAccount (inr payload) st))
        = AccountsContext.accounts st)
  /\ (forall accountId : Z,
        (forall a, In a (AccountsContext.accounts st) ->
                   AccountsContext.id a <> accountId) ->
        AccountsContext.accounts
          (fst (AccountsContext.deleteAccount accountId (inr tt) st))
        = AccountsContext.accounts st).
Proof.
  split; [|split].
  - intro mensagem. repeat split.
  - intros payload H. cbn.
    apply (map_replace_absent AccountsContext.id payload _ H).
  - intros accountId H. cbn. apply delete_absent. exact H.
Qed.

Lemma account_mutations_witness :
  AccountsContext.accounts
    (fst (AccountsContext.updateAccount
            (inr (AccountsContext.mkAccount 9 "cash" 10 true))
            Examples.twoCards))
  = AccountsContext.accounts Examples.twoCards
  /\ AccountsContext.accounts
       (fst (AccountsContext.deleteAccount 9 (inr tt) Examples.twoCards))
     = AccountsContext.accounts Examples.twoCards.
Proof.
  split.
  - apply (proj1 (proj2
             (account_mutations_fail_cleanly_and_ignore_unknown_ids
                Examples.twoCards))).
    intros a [<- | [<- | []]]; discriminate.
  - apply (proj2 (proj2
             (account_mutations_fail_cleanly_and_ignore_unknown_ids
                Examples.twoCards))).
    intros a [<- | [<- | []]]; discriminate.
Defined.

Section WindowEdges.

Import BudgetsContext.

(** X26: For a month 1..12 whose bounds are valid dates, a transaction dated
    exactly at the start of the window (day 1, 00:00:00.000) or at its end
    (last day, 23:59:59.000) passes the filter of getCategorySpent exactly
    when it is an expense; a transaction dated later within that last
    second, or at the first instant of the next month, never passes it. *)
Theorem month_window_edges (y m : Z) (t : TransactionsContext.Transaction) :
  let startDate := JSDate.newDate y (m - 1) 1 0 0 0 0 in
  let endDate := JSDate.newDate y m 0 23 59 59 0 in
  (1 <= m <= 12 ->
   (exists t0 t1, startDate = Some t0 /\ endDate = Some t1) ->
   (TransactionsContext.date t = startDate
    \/ TransactionsContext.date t = endDate) ->
   spentFilter startDate endDate t
   = (TransactionsContext.type t =? "expense")%string)
  /\ (forall ms, 0 < ms ->
        TransactionsContext.date t = JSDate.newDate y m 0 23 59 59 ms ->
        spentFilter startDate endDate t = false)
  /\ (TransactionsContext.date t = JSDate.newDate y m 1 0 0 0 0 ->
      spentFilter startDate endDate t = false).
Proof.
  cbv zeta. split; [|split].
  - intros Hm (t0 & t1 & H0 & H1) Hd.
    assert (Hle : t0 <= t1).
    { pose proof (DaysInMonth_pos
                    (if (0 <=? y) && (y <=? 99) then 1900 + y else y)
                    (m - 1)) as Hpos.
      unfold JSDate.newDate, JSDate.TimeClip in H0, H1.
      destruct (_ <? _) in H0; [discriminate|].
      destruct (_ <? _) in H1; [discriminate|].
      assert (E0 : JSDate.MakeDate
                     (JSDate.MakeDay
                        (if (0 <=? y) && (y <=? 99) then 1900 + y else y)
                        (m - 1) 1)
                     (JSDate.MakeTime 0 0 0 0) = t0) by congruence.
      assert (E1 : JSDate.MakeDate
                     (JSDate.MakeDay
                        (if (0 <=? y) && (y <=? 99) then 1900 + y else y)
                        m 0)
                     (JSDate.MakeTime 23 59 59 0) = t1) by congruence.
      rewrite <- E0, <- E1. rewrite MakeDay_day_zero by exact Hm.
      unfold JSDate.MakeDay, JSDate.MakeDate, JSDate.MakeTime,
        JSDate.msPerDay. lia. }
    unfold spentFilter, JSDate.ge. rewrite H0, H1.
    destruct Hd as [-> | ->]; [rewrite H0 | rewrite H1]; cbn [JSDate.le];
      rewrite Z.leb_refl; apply Z.leb_le in Hle; rewrite Hle; reflexivity.
  - intros ms Hms Hd. unfold spentFilter. rewrite Hd.
    rewrite window_ends_on_the_second by exact Hms.
    rewrite andb_false_r. reflexivity.
  - intro Hd. unfold spentFilter. rewrite Hd.
    rewrite window_excludes_next_month.
    rewrite andb_false_r. reflexivity.
Qed.

Lemma month_window_edges_witness :
  spentFilter (JSDate.newDate 2024 (3 - 1) 1 0 0 0 0)
              (JSDate.newDate 2024 3 0 23 59 59 0)
              (Examples.expense 1 (JSDate.newDate 2024 3 0 23 59 59 0) 10
                 "pending")
  = true
  /\ spentFilter (JSDate.newDate 2024 (3 - 1) 1 0 0 0 0)
                 (JSDate.newDate 2024 3 0 23 59 59 0)
                 (Examples.expense 1 (JSDate.newDate 2024 3 0 23 59 59 1) 10
                    "pending")
     = false.
Proof.
  split.
  - apply (proj1 (month_window_edges 2024 3
                    (Examples.expense 1 (JSDate.newDate 2024 3 0 23 59 59 0)
                       10 "pending"))).
    + lia.
    + eexists; eexists; split; reflexivity.
    + right. reflexivity.
  - apply (proj1 (proj2 (month_window_edges 2024 3
                    (Examples.expense 1 (JSDate.newDate 2024 3 0 23 59 59 1)
                       10 "pending"))) 1).
    + lia.
    + reflexivity.
Defined.

(** X27: For a clock year above 99, every year offered by getYearOptions (the
    current year and the next two) and every month offered by
    getMonthOptions (1..12) give a window whose end, new Date(y, m, 0, 23,
    59, 59), is day DaysInMonth of month m of year y, and whose start is
    day 1 of that month with no two-digit-year shift. *)
Theorem form_periods_end_on_the_last_day (currentYear y m : Z) :
  99 < currentYear ->
  In y (BudgetForm.getYearOptions currentYear) ->
  In m BudgetForm.monthValues ->
  JSDate.newDate y m 0 23 59 59 0
  = JSDate.newDate y (m - 1) (JSDate.DaysInMonth y (m - 1)) 23 59 59 0
  /\ JSDate.newDate y (m - 1) 1 0 0 0 0
     = JSDate.TimeClip
         (JSDate.MakeDate (JSDate.MakeDay y (m - 1) 1) 0).
Proof.
  intros Hc Hy Hm.
  assert (Hy' : 99 < y).
  { cbn in Hy. destruct Hy as [<- | [<- | [<- | []]]]; lia. }
  assert (Hm' : 1 <= m <= 12).
  { cbn in Hm. repeat (destruct Hm as [<- | Hm]; [lia|]). destruct Hm. }
  split.
  - apply newDate_day_zero; [right; exact Hy' | exact Hm'].
  - unfold JSDate.newDate.
    replace ((0 <=? y) && (y <=? 99)) with false
      by (symmetry; apply andb_false_iff; lia).
    reflexivity.
Qed.

Lemma form_periods_end_on_the_last_day_witness :
  JSDate.newDate 2025 2 0 23 59 59 0
  = JSDate.newDate 2025 (2 - 1) (JSDate.DaysInMonth 2025 (2 - 1)) 23 59 59 0.
Proof.
  apply (form_periods_end_on_the_last_day 2024 2025 2);
    [lia | right; left; reflexivity | right; left; reflexivity].
Defined.

End WindowEdges.

(* ================================================================= *)
(** * Double arithmetic and the calendar month *)

Section DoubleArithmetic.

Import Binary64.

(** ** Powers of two and the exponent of a rational *)

Lemma two_neq_0 : ~ (2 == 0)%Q.
Proof. discriminate. Qed.

Lemma pow2_pos (e : Z) : (0 < pow2 e)%Q.
Proof. apply Qpower_0_lt. reflexivity. Qed.

Lemma pow2_add (a b : Z) : (pow2 (a + b) == pow2 a * pow2 b)%Q.
Proof. apply Qpower_plus. exact two_neq_0. Qed.

Lemma pow2_le (a b : Z) : a <= b -> (pow2 a <= pow2 b)%Q.
Proof. intro H. apply Qpower_le_compat_l; [exact H | discriminate]. Qed.

Lemma pow2_lt (a b : Z) : a < b -> (pow2 a < pow2 b)%Q.
Proof. intro H. apply Qpower_lt_compat_l; [exact H | reflexivity]. Qed.

Lemma pow2_lt_inv (a b : Z) : (pow2 a < pow2 b)%Q -> a < b.
Proof. intro H. apply (Qpower_lt_compat_l_inv 2); [exact H | reflexivity]. Qed.

Lemma pow2_Z (n : Z) : 0 <= n -> (pow2 n == inject_Z (2 ^ n))%Q.
Proof. intro H. unfold pow2. rewrite Zpower_Qpower by exact H. reflexivity. Qed.

Lemma pow2_sub (a b : Z) : (pow2 (a - b) == pow2 a / pow2 b)%Q.
Proof.
  assert (H : (pow2 (a - b) * pow2 b == pow2 a)%Q).
  { rewrite <- pow2_add. replace (a - b + b) with a by lia. reflexivity. }
  pose proof (pow2_pos b) as Hb.
  rewrite <- H. field. intro E. rewrite E in Hb. discriminate Hb.
Qed.

(** A positive rational between the powers of two around its numerator and
    denominator. *)
Lemma ratio_bounds (q : Q) :
  (0 < q)%Q ->
  let k := Z.log2 (Qnum q) - Z.log2 (Zpos (Qden q)) in
  (pow2 (k - 1) < q /\ q < pow2 (k + 1))%Q.
Proof.
  intros Hq k. destruct q as [a b]. cbn [Qnum Qden] in k.
  assert (Ha : 0 < a).
  { unfold Qlt in Hq. cbn in Hq. lia. }
  set (la := Z.log2 a) in *. set (lb := Z.log2 (Z.pos b)) in *.
  destruct (Z.log2_spec a Ha) as [A1 A2]. fold la in A1, A2.
  destruct (Z.log2_spec (Z.pos b) ltac:(lia)) as [B1 B2]. fold lb in B1, B2.
  assert (Hla : 0 <= la) by apply Z.log2_nonneg.
  assert (Hlb : 0 <= lb) by apply Z.log2_nonneg.
  assert (Eq : (a # b == inject_Z a / inject_Z (Z.pos b))%Q).
  { rewrite Qmake_Qdiv. reflexivity. }
  assert (Hbpos : (0 < inject_Z (Z.pos b))%Q) by reflexivity.
  split.
  - (* pow2 (la - lb - 1) < a / b *)
    unfold k. replace (la - lb - 1) with (la - (lb + 1)) by lia.
    rewrite pow2_sub, Eq.
    apply Qlt_shift_div_l; [exact Hbpos|].
    unfold Qdiv. rewrite <- Qmult_assoc, (Qmult_comm (/ _)), Qmult_assoc.
    apply Qlt_shift_div_r; [apply pow2_pos|].
    rewrite !pow2_Z by lia. rewrite <- !inject_Z_mult.
    rewrite <- Zlt_Qlt.
    apply Z.le_lt_trans with (a * Z.pos b); [nia|].
    apply Z.mul_lt_mono_pos_l; [exact Ha|]. exact B2.
  - unfold k. replace (la - lb + 1) with (la + 1 - lb) by lia.
    rewrite pow2_sub, Eq.
    apply Qlt_shift_div_r; [exact Hbpos|].
    unfold Qdiv. rewrite <- Qmult_assoc, (Qmult_comm (/ _)), Qmult_assoc.
    apply Qlt_shift_div_l; [apply pow2_pos|].
    rewrite !pow2_Z by lia. rewrite <- !inject_Z_mult.
    rewrite <- Zlt_Qlt.
    apply Z.lt_le_trans with (2 ^ (la + 1) * 2 ^ lb); [|nia].
    apply Z.mul_lt_mono_pos_r; [|exact A2]. lia.
Qed.

Lemma ilog2_spec (q : Q) :
  (0 < q)%Q -> (pow2 (ilog2 q) <= q /\ q < pow2 (ilog2 q + 1))%Q.
Proof.
  intro Hq. destruct (ratio_bounds q Hq) as [L U]. unfold ilog2.
  set (k := Z.log2 (Qnum q) - Z.log2 (Z.pos (Qden q))) in *.
  destruct (Qle_bool (pow2 k) q) eqn:E.
  - apply Qle_bool_iff in E. split; assumption.
  - split; [apply Qlt_le_weak; exact L|].
    replace (k - 1 + 1) with k by lia.
    apply Qnot_le_lt. intro H. apply Qle_bool_iff in H. congruence.
Qed.

Lemma ilog2_unique (q : Q) (e : Z) :
  (pow2 e <= q)%Q -> (q < pow2 (e + 1))%Q -> ilog2 q = e.
Proof.
  intros L U.
  assert (Hq : (0 < q)%Q) by (eapply Qlt_le_trans; [apply pow2_pos | exact L]).
  destruct (ilog2_spec q Hq) as [L' U'].
  assert (ilog2 q < e + 1)
    by (apply pow2_lt_inv; eapply Qle_lt_trans; eassumption).
  assert (e < ilog2 q + 1)
    by (apply pow2_lt_inv; eapply Qle_lt_trans; eassumption).
  lia.
Qed.

Lemma ilog2_le (p q : Q) : (0 < p)%Q -> (p <= q)%Q -> ilog2 p <= ilog2 q.
Proof.
  intros Hp Hpq.
  assert (Hq : (0 < q)%Q) by (eapply Qlt_le_trans; eassumption).
  destruct (ilog2_spec p Hp) as [L _]. destruct (ilog2_spec q Hq) as [_ U].
  assert (ilog2 p < ilog2 q + 1).
  { apply pow2_lt_inv. eapply Qle_lt_trans; [exact L|].
    eapply Qle_lt_trans; eassumption. }
  lia.
Qed.

(** ** Rounding is monotone *)

Lemma nearestEven_bounds (s : Q) :
  Qfloor s <= nearestEven s <= Qfloor s + 1.
Proof.
  unfold nearestEven.
  destruct (s - inject_Z (Qfloor s) ?= 1 # 2)%Q;
    [destruct (Z.even (Qfloor s))|..]; lia.
Qed.

Lemma nearestEven_Z (n : Z) : nearestEven (inject_Z n) = n.
Proof.
  unfold nearestEven. rewrite Qfloor_Z.
  replace (inject_Z n - inject_Z n ?= 1 # 2)%Q with Lt; [reflexivity|].
  symmetry. apply (proj1 (Qlt_alt _ _)).
  setoid_replace (inject_Z n - inject_Z n)%Q with 0%Q by ring. reflexivity.
Qed.

Lemma nearestEven_le (s t : Q) :
  (s <= t)%Q -> nearestEven s <= nearestEven t.
Proof.
  intro H. pose proof (Qfloor_resp_le s t H) as Hf.
  pose proof (nearestEven_bounds s) as Bs.
  pose proof (nearestEven_bounds t) as Bt.
  destruct (Z.eq_dec (Qfloor s) (Qfloor t)) as [E|NE]; [|lia].
  unfold nearestEven. rewrite <- E.
  destruct (Qcompare_spec (s - inject_Z (Qfloor s)) (1 # 2)) as [Hs|Hs|Hs];
    destruct (Qcompare_spec (t - inject_Z (Qfloor s)) (1 # 2)) as [Ht|Ht|Ht];
    try (destruct (Z.even (Qfloor s))); try lia; exfalso; lra.
Qed.

(** The scaled mantissa of a positive rational. *)
Lemma scaled_bounds (q : Q) :
  (0 < q)%Q ->
  (pow2 52 <= q / pow2 (ilog2 q - 52) /\ q / pow2 (ilog2 q - 52) < pow2 53)%Q.
Proof.
  intro Hq. destruct (ilog2_spec q Hq) as [L U].
  pose proof (pow2_pos (ilog2 q - 52)) as He.
  split.
  - apply Qle_shift_div_l; [exact He|].
    rewrite <- pow2_add. replace (52 + (ilog2 q - 52)) with (ilog2 q) by lia.
    exact L.
  - apply Qlt_shift_div_r; [exact He|].
    rewrite <- pow2_add.
    replace (53 + (ilog2 q - 52)) with (ilog2 q + 1) by lia.
    exact U.
Qed.

Lemma mantissa_bounds (q : Q) :
  (0 < q)%Q ->
  2 ^ 52 <= nearestEven (q / pow2 (ilog2 q - 52)) <= 2 ^ 53.
Proof.
  intro Hq. destruct (scaled_bounds q Hq) as [L U].
  rewrite (pow2_Z 52) in L by lia. rewrite (pow2_Z 53) in U by lia. split.
  - rewrite <- (nearestEven_Z (2 ^ 52)). apply nearestEven_le. exact L.
  - rewrite <- (nearestEven_Z (2 ^ 53)). apply nearestEven_le.
    apply Qlt_le_weak. exact U.
Qed.

Lemma roundPositive_bounds (q : Q) :
  (0 < q)%Q ->
  (pow2 (ilog2 q) <= roundPositive q <= pow2 (ilog2 q + 1))%Q.
Proof.
  intro Hq. destruct (mantissa_bounds q Hq) as [L U].
  unfold roundPositive.
  set (m := nearestEven (q / pow2 (ilog2 q - 52))) in *.
  pose proof (pow2_pos (ilog2 q - 52)) as He.
  replace (ilog2 q) with (52 + (ilog2 q - 52)) at 1 by lia.
  replace (ilog2 q + 1) with (53 + (ilog2 q - 52)) by lia.
  rewrite !pow2_add, !(pow2_Z 52), !(pow2_Z 53) by lia.
  split; apply Qmult_le_r; try exact He; rewrite <- Zle_Qle; assumption.
Qed.

Lemma roundPositive_le (p q : Q) :
  (0 < p)%Q -> (p <= q)%Q -> (roundPositive p <= roundPositive q)%Q.
Proof.
  intros Hp Hpq.
  assert (Hq : (0 < q)%Q) by (eapply Qlt_le_trans; eassumption).
  pose proof (ilog2_le p q Hp Hpq) as He.
  destruct (Z.eq_dec (ilog2 p) (ilog2 q)) as [E|NE].
  - unfold roundPositive. rewrite E.
    pose proof (pow2_pos (ilog2 q - 52)) as Hpos.
    apply Qmult_le_r; [exact Hpos|]. rewrite <- Zle_Qle.
    apply nearestEven_le. apply Qmult_le_r; [|exact Hpq].
    apply Qinv_lt_0_compat. exact Hpos.
  - destruct (roundPositive_bounds p Hp) as [_ U].
    destruct (roundPositive_bounds q Hq) as [L _].
    eapply Qle_trans; [exact U|]. eapply Qle_trans; [|exact L].
    apply pow2_le. lia.
Qed.

Lemma roundPositive_pos (q : Q) : (0 < q)%Q -> (0 < roundPositive q)%Q.
Proof.
  intro Hq. destruct (roundPositive_bounds q Hq) as [L _].
  eapply Qlt_le_trans; [apply pow2_pos | exact L].
Qed.

Lemma round_pos (q : Q) : (0 < q)%Q -> round q = roundPositive q.
Proof.
  intro Hq. unfold round. apply (proj1 (Qgt_alt _ _)) in Hq. rewrite Hq. reflexivity.
Qed.

Lemma round_nonpos (q : Q) : (q <= 0)%Q -> (round q <= 0)%Q.
Proof.
  intro Hq. unfold round.
  destruct (Qcompare_spec q 0) as [E|L|G].
  - apply Qle_refl.
  - assert (H : (0 < - q)%Q) by lra.
    pose proof (roundPositive_pos (- q) H). lra.
  - exfalso. lra.
Qed.

Lemma round_le (x y : Q) : (x <= y)%Q -> (round x <= round y)%Q.
Proof.
  intro H. unfold round.
  destruct (Qcompare_spec x 0) as [Ex|Lx|Gx];
    destruct (Qcompare_spec y 0) as [Ey|Ly|Gy]; try (exfalso; lra).
  - apply Qle_refl.
  - apply Qlt_le_weak, roundPositive_pos. exact Gy.
  - pose proof (roundPositive_pos (- x) ltac:(lra)). lra.
  - assert (Hle : (roundPositive (- y) <= roundPositive (- x))%Q)
      by (apply roundPositive_le; lra).
    lra.
  - pose proof (roundPositive_pos (- x) ltac:(lra)).
    pose proof (roundPositive_pos y Gy). lra.
  - apply roundPositive_le; assumption.
Qed.

#[local] Instance round_proper : Proper (Qeq ==> Qeq) round.
Proof.
  intros x y E. apply Qle_antisym; apply round_le; rewrite E; apply Qle_refl.
Qed.

(** ** Doubles *)












(** ** The status thresholds *)

Section Thresholds.

Import BudgetsContext.

Lemma percentage_positive_ceiling (spent amount : Q) :
  (0 < amount)%Q ->
  Binary64.mul (Binary64.div spent amount) (JS.Num 100)
  = JS.Num (round (round (spent / amount) * 100)).
Proof.
  intro Ha. unfold Binary64.div. rewrite (div_positive _ _ Ha).
  reflexivity.
Qed.




Example rounded_percentage_of_2_40_on_3 :
  (Binary64.mul
     (Binary64.div (Binary64.getCategorySpent Sample.smallExpense "food" 2024 3)
        3)
     (JS.Num 100)) = JS.Num (round 80)
  /\ (Binary64.getCategorySpent Sample.smallExpense "food" 2024 3
      < (8 # 10) * 3)%Q.
Proof. split; vm_compute; reflexivity. Qed.

Example rounded_percentage_of_16_08_on_20_10 :
  Binary64.getBudgetStatus Sample.roundedDown Sample.roundedDownBudget
  = "on_track"%string
  /\ (round (round (decimal 1608 100 / decimal 2010 100) * 100)
      == 80 - pow2 (-46))%Q.
Proof. split; vm_compute; reflexivity. Qed.

End Thresholds.

(** ** The calendar month *)

(** C3: a pending expense of 100 dated 2024-03-31 23:59:59.500 belongs to
    the calendar month of March 2024, whose expenses of the category sum
    to 100; [getCategorySpent] answers 0 for March, and 0 for April. *)
Theorem getCategorySpent_misses_the_last_second_of_the_month :
  (Calendar.calendarMonthSpent Calendar.lastHalfSecondOfMarch "food" 2024 3
   == 100)%Q
  /\ (BudgetsContext.getCategorySpent Calendar.lastHalfSecondOfMarch "food"
        2024 3 == 0)%Q
  /\ (BudgetsContext.getCategorySpent Calendar.lastHalfSecondOfMarch "food"
        2024 4 == 0)%Q.
Proof. repeat split. Qed.

Example two_digit_year_is_read_as_1900s :
  (BudgetsContext.getCategorySpent Calendar.march1950 "food" 50 3 == 100)%Q
  /\ (BudgetsContext.getCategorySpent Calendar.march1950 "food" 1950 3
      == 100)%Q.
Proof. split; reflexivity. Qed.

(** ** Which elements are summed *)

Lemma filter_split_perm {A : Type} (p q r : A -> bool) (l : list A) :
  (forall x, In x l -> p x = q x || r x) ->
  (forall x, In x l -> q x && r x = false) ->
  Permutation (filter p l) (filter q l ++ filter r l).
Proof.
  induction l as [|x l IH]; intros Hp Hd; cbn [filter].
  - constructor.
  - assert (IH' : Permutation (filter p l) (filter q l ++ filter r l)).
    { apply IH; intros; [apply Hp | apply Hd]; simpl; auto. }
    pose proof (Hp x (or_introl eq_refl)) as Hx.
    pose proof (Hd x (or_introl eq_refl)) as Hy.
    destruct (p x), (q x), (r x); try discriminate; cbn [app].
    + apply perm_skip. exact IH'.
    + apply Permutation_cons_app. exact IH'.
    + exact IH'.
Qed.

Section AccountsByType.

Import AccountsContext.

(** X5: when every active account has one of the five known types, the
    accounts that [getTotalBalance] sums are, up to their order, those that
    [getAccountsByType] returns for checking, savings, cash and
    investment, each of them once. *)
Theorem getTotalBalance_counts_each_typed_account_once (st : State) :
  (forall a, In a (accounts st) -> isActive a = true ->
             In (type a) [CHECKING; SAVINGS; CREDIT; CASH; INVESTMENT]) ->
  exists counted : list Account,
    getTotalBalance st = JS.reduce_sum balance counted
    /\ Permutation counted
         (getAccountsByType st CHECKING ++ getAccountsByType st SAVINGS
          ++ getAccountsByType st CASH ++ getAccountsByType st INVESTMENT).
Proof.
  intro Hknown. eexists. split; [reflexivity|].
  unfold getAccountsByType.
  set (ofType ty := fun a : Account => (type a =? ty)%string && isActive a).
  assert (Hcase : forall a, In a (accounts st) ->
            isActive a = false
            \/ (isActive a = true
                /\ In (type a) [CHECKING; SAVINGS; CREDIT; CASH; INVESTMENT])).
  { intros a Ha. destruct (isActive a) eqn:E; [right|left]; auto. }
  eapply Permutation_trans.
  { apply (filter_split_perm _ (ofType CHECKING)
             (fun a => ofType SAVINGS a || ofType CASH a || ofType INVESTMENT a));
      intros a Ha; unfold ofType;
      (destruct (Hcase a Ha) as [E | [E [T | [T | [T | [T | [T | []]]]]]]];
       rewrite E; [rewrite !andb_false_r; reflexivity|..];
       rewrite <- T; reflexivity). }
  apply Permutation_app_head.
  eapply Permutation_trans.
  { apply (filter_split_perm _ (ofType SAVINGS)
             (fun a => ofType CASH a || ofType INVESTMENT a));
      intros a Ha; unfold ofType;
      (destruct (Hcase a Ha) as [E | [E [T | [T | [T | [T | [T | []]]]]]]];
       rewrite E; [rewrite !andb_false_r; reflexivity|..];
       rewrite <- T; reflexivity). }
  apply Permutation_app_head.
  apply (filter_split_perm _ (ofType CASH) (ofType INVESTMENT));
    intros a Ha; unfold ofType;
    (destruct (Hcase a Ha) as [E | [E [T | [T | [T | [T | [T | []]]]]]]];
     rewrite E; [rewrite !andb_false_r; reflexivity|..];
     rewrite <- T; reflexivity).
Qed.

End AccountsByType.

Section AdjacentPeriods.

Import TransactionsContext.

(** X7: for time values [a <= m + 1] and [m <= b], the transactions of
    the period [a, b] are, up to their order, those of [a, m] followed by
    those of [m + 1, b], also after any further filter: adjacent closed
    periods neither lose nor repeat a transaction. *)
Theorem adjacent_periods_share_no_transaction
    (st : State) (a m b : Z) (keep : Transaction -> bool) :
  a <= m + 1 -> m <= b ->
  Permutation
    (filter keep (getTransactionsByPeriod st (Some a) (Some b)))
    (filter keep (getTransactionsByPeriod st (Some a) (Some m))
     ++ filter keep (getTransactionsByPeriod st (Some (m + 1)) (Some b))).
Proof.
  intros Ham Hmb. unfold getTransactionsByPeriod.
  rewrite !filter_filter.
  apply filter_split_perm; intros t _; unfold JSDate.ge, JSDate.le;
    destruct (date t) as [d|], (keep t); cbn [andb orb]; try reflexivity;
    destruct (Z.leb_spec a d), (Z.leb_spec d b), (Z.leb_spec d m),
      (Z.leb_spec (m + 1) d); cbn [andb orb]; try reflexivity; lia.
Qed.

End AdjacentPeriods.

Section AccountsByTypeWitness.
Import AccountsContext.
Lemma getTotalBalance_counts_each_typed_account_once_witness :
  exists counted : list Account,
    getTotalBalance
      (mkState [mkAccount 1 "checking" 100 true;
                mkAccount 2 "credit" (-30) true;
                mkAccount 3 "loan" 5 false] false None)
    = JS.reduce_sum balance counted
    /\ Permutation counted
         (getAccountsByType
            (mkState [mkAccount 1 "checking" 100 true;
                      mkAccount 2 "credit" (-30) true;
                      mkAccount 3 "loan" 5 false] false None) CHECKING
          ++ getAccountsByType
               (mkState [mkAccount 1 "checking" 100 true;
                         mkAccount 2 "credit" (-30) true;
                         mkAccount 3 "loan" 5 false] false None) SAVINGS
          ++ getAccountsByType
               (mkState [mkAccount 1 "checking" 100 true;
                         mkAccount 2 "credit" (-30) true;
                         mkAccount 3 "loan" 5 false] false None) CASH
          ++ getAccountsByType
               (mkState [mkAccount 1 "checking" 100 true;
                         mkAccount 2 "credit" (-30) true;
                         mkAccount 3 "loan" 5 false] false None) INVESTMENT).
Proof.
  apply (getTotalBalance_counts_each_typed_account_once
           (mkState [mkAccount 1 "checking" 100 true;
                     mkAccount 2 "credit" (-30) true;
                     mkAccount 3 "loan" 5 false] false None)).
  intros a [<- | [<- | [<- | []]]]; simpl; intro H;
    [left | right; right; left | discriminate H]; reflexivity.
Defined.
End AccountsByTypeWitness.

Lemma adjacent_periods_share_no_transaction_witness :
  Permutation
    (filter (fun _ => true)
       (TransactionsContext.getTransactionsByPeriod Examples.march
          (Some 1706745600000) (Some 1711929599000)))
    (filter (fun _ => true)
       (TransactionsContext.getTransactionsByPeriod Examples.march
          (Some 1706745600000) (Some 1709251199999))
     ++ filter (fun _ => true)
          (TransactionsContext.getTransactionsByPeriod Examples.march
             (Some (1709251199999 + 1)) (Some 1711929599000))).
Proof.
  apply (adjacent_periods_share_no_transaction Examples.march
           1706745600000 1709251199999 1711929599000); lia.
Defined.

Section Doubles.

Import BudgetsContext.

Lemma reduce_step_le {A : Type} (f : A -> Q) (l : list A) (a a' : Q) :
  (a <= a')%Q ->
  (fold_left (fun total x => round (total + f x)) l a
   <= fold_left (fun total x => round (total + f x)) l a')%Q.
Proof.
  revert a a'. induction l as [|x l IH]; intros a a' H; cbn [fold_left].
  - exact H.
  - apply IH. apply round_le. lra.
Qed.

Lemma round_0 : round 0 = 0%Q.
Proof. reflexivity. Qed.

Lemma percentage_le (s1 s2 amount : Q) :
  (0 < amount)%Q -> (s1 <= s2)%Q ->
  (round (round (s1 / amount) * 100) <= round (round (s2 / amount) * 100))%Q.
Proof.
  intros Ha H. apply round_le. apply Qmult_le_r; [reflexivity|].
  apply round_le. apply Qmult_le_r; [|exact H].
  apply Qinv_lt_0_compat. exact Ha.
Qed.

(** X13: in double arithmetic too, a successful [addTransaction] of a
    transaction with a non-negative amount never lowers
    [getCategorySpent], and for a budget with a positive amount it never
    moves the status back. *)
Theorem added_spending_in_doubles
    (p : TransactionsContext.Provider)
    (t : TransactionsContext.Transaction) (b : Budget) :
  (0 <= TransactionsContext.amount t)%Q ->
  (0 < amount b)%Q ->
  let before := TransactionsContext.state p in
  let after :=
    TransactionsContext.state
      (fst (TransactionsContext.addTransaction (inr t) p)) in
  (Binary64.getCategorySpent before (categoryId b) (year b) (month b)
   <= Binary64.getCategorySpent after (categoryId b) (year b) (month b))%Q
  /\ Derived.statusRank (Binary64.getBudgetStatus before b)
     <= Derived.statusRank (Binary64.getBudgetStatus after b).
Proof.
  intros Ht Ha before after.
  assert (Hspent :
    (Binary64.getCategorySpent before (categoryId b) (year b) (month b)
     <= Binary64.getCategorySpent after (categoryId b) (year b) (month b))%Q).
  { assert (E : TransactionsContext.transactions after
                = t :: TransactionsContext.transactions before)
      by reflexivity.
    unfold Binary64.getCategorySpent,
      TransactionsContext.getTransactionsByCategory.
    rewrite E. cbn [filter].
    destruct (Category.id (TransactionsContext.category t) =? categoryId b)%string;
      cbn [filter]; [|apply Qle_refl].
    destruct (spentFilter _ _ t); [|apply Qle_refl].
    unfold Binary64.reduce_sum. cbn [fold_left].
    apply reduce_step_le. rewrite <- round_0 at 1. apply round_le. lra. }
  split; [exact Hspent|].
  unfold Binary64.getBudgetStatus.
  rewrite !(percentage_positive_ceiling _ _ Ha), !statusRank_cases.
  pose proof (percentage_le _ _ (amount b) Ha Hspent) as Hp.
  revert Hp.
  generalize
    (round (round (Binary64.getCategorySpent before (categoryId b)
                     (year b) (month b) / amount b) * 100)).
  generalize
    (round (round (Binary64.getCategorySpent after (categoryId b)
                     (year b) (month b) / amount b) * 100)).
  intros p2 p1 Hp.
  destruct (Qle_bool 100 p1) eqn:E1; destruct (Qle_bool 80 p1) eqn:F1;
    destruct (Qle_bool 100 p2) eqn:E2; destruct (Qle_bool 80 p2) eqn:F2;
    try lia; exfalso;
    repeat match goal with
           | H : Qle_bool _ _ = true |- _ => apply Qle_bool_iff in H
           | H : Qle_bool ?x ?y = false |- _ =>
               assert (~ (x <= y)%Q)
                 by (rewrite <- Qle_bool_iff; congruence);
               clear H
           end;
    lra.
Qed.

Lemma added_spending_in_doubles_witness :
  (Binary64.getCategorySpent
     (TransactionsContext.state (Examples.provider [])) "food" 2024 3
   <= Binary64.getCategorySpent
        (TransactionsContext.state
           (fst (TransactionsContext.addTransaction
                   (inr (Examples.expense 4
                           (JSDate.newDate 2024 2 25 9 30 0 0)
                           (decimal 24 10) "completed"))
                   (Examples.provider []))))
        "food" 2024 3)%Q.
Proof.
  apply (proj1 (added_spending_in_doubles (Examples.provider [])
                  (Examples.expense 4 (JSDate.newDate 2024 2 25 9 30 0 0)
                     (decimal 24 10) "completed")
                  Sample.smallBudget ltac:(discriminate) ltac:(reflexivity))).
Defined.

(** X15: no transaction passes the date and type filter of
    [getCategorySpent] for a month and for the month after it. *)
Theorem consecutive_month_windows_are_disjoint
    (y m : Z) (t : TransactionsContext.Transaction) :
  spentFilter (JSDate.newDate y (m - 1) 1 0 0 0 0)
              (JSDate.newDate y m 0 23 59 59 0) t
  && spentFilter (JSDate.newDate y (m + 1 - 1) 1 0 0 0 0)
                 (JSDate.newDate y (m + 1) 0 23 59 59 0) t
  = false.
Proof.
  unfold spentFilter, JSDate.ge.
  destruct (JSDate.le (TransactionsContext.date t)
                      (JSDate.newDate y m 0 23 59 59 0)) eqn:E1;
    [|rewrite !andb_false_r; reflexivity].
  destruct (JSDate.le (JSDate.newDate y (m + 1 - 1) 1 0 0 0 0)
                      (TransactionsContext.date t)) eqn:E2;
    [|rewrite !andb_false_r; reflexivity].
  exfalso. pose proof (le_trans_valid _ _ _ E2 E1) as E.
  replace (m + 1 - 1) with m in E by lia.
  rewrite window_excludes_next_month in E. discriminate E.
Qed.

End Doubles.

End DoubleArithmetic.
